(** * Manifest normalisation of cargo's [util/toml/mod.rs]

    A shallow embedding of the parts of [src/cargo/util/toml/mod.rs] that
    resolve workspace inheritance ([ws_default],
    [DefinedTomlDependency::from_workspace_dependency]), materialise
    dependencies ([TomlDependencyDetails::to_dependency]), collect them in
    [DefinedTomlManifest::into_real_manifest], validate profiles
    ([TomlProfile::validate]) and drive the whole ([do_read_manifest]).

    Conventions:
    - [CargoResult T] is [result T string]: an [anyhow] error is kept as its
      rendered message, built with the same [format!] text as the source.
    - A [BTreeMap<String, V>] is an association list iterated in list order
      (the source iterates it in key order).
    - Collaborators that live outside [mod.rs] (URL parsing, registry lookup
      through [Config], semver parsing in [Dependency::parse], the
      [Features] gate, platform parsing, path operations, the failure of
      [SourceId::new], Unicode character classes) are fields of an
      environment record [Env]: every theorem holds for every choice of them.
    - A [panic] (of [Option::unwrap]) is modelled as an [Err] carrying the
      panic message.
    - A [String] is its UTF-8 bytes; [chars()] decodes them. *)

From Stdlib Require Import String Ascii List Bool Arith Lia ZArith DecimalString DecimalZ.
Import ListNotations.
Open Scope string_scope.
Set Warnings "-register-all".

(** ** Results and the error monad *)

Inductive result (T E : Type) : Type :=
| Ok (t : T)
| Err (e : E).
Arguments Ok {T E} t.
Arguments Err {T E} e.

Definition CargoResult (T : Type) : Type := result T string.

Definition bind {A B : Type} (r : CargoResult A) (k : A -> CargoResult B) : CargoResult B :=
  match r with
  | Ok a => k a
  | Err e => Err e
  end.

(** [let? x := r in k] is Rust's [let x = r?; k]. *)
Notation "'let?' x ':=' r 'in' k" := (bind r (fun x => k))
  (at level 200, x pattern, r at level 100, k at level 200).

Definition is_ok {T : Type} (r : CargoResult T) : bool :=
  match r with Ok _ => true | Err _ => false end.

(** ** Strings *)

Fixpoint contains_char (c : ascii) (s : string) : bool :=
  match s with
  | EmptyString => false
  | String c' s' => Ascii.eqb c c' || contains_char c s'
  end.

(** The double-quote character. *)
Definition dq : string := String "034"%char EmptyString.

(** [s] occurs inside [msg]: what "the message names [s]" means below. *)
Definition names (msg s : string) : Prop :=
  exists pre suf, msg = pre ++ s ++ suf.

(** ** [MaybeWorkspace] and the workspace table (lines 1070-1074, 1427-1452) *)

Inductive MaybeWorkspace (T : Type) : Type :=
| Workspace
| Defined (value : T).
Arguments Workspace {T}.
Arguments Defined {T} value.

(** [DefinedTomlDependency] (lines 162-165) with [TomlDependencyDetails]
    (lines 280-300). *)
Module TomlDependencyDetails.
Record t : Type := mk {
  version : option string;
  registry : option string;
  registry_index : option string;
  path : option string;
  git : option string;
  branch : option string;
  tag : option string;
  rev : option string;
  features : option (list string);
  optional : option bool;
  default_features : option bool;
  default_features2 : option bool;
  package : option string;
  public : option bool
}.

(** [TomlDependencyDetails::default()] *)
Definition default : t :=
  mk None None None None None None None None None None None None None None.
End TomlDependencyDetails.

Module DefinedTomlDependency.
Inductive t : Type :=
| Simple (version : string)
| Detailed (details : TomlDependencyDetails.t).

(** [DefinedTomlDependency::is_optional] *)
Definition is_optional (d : t) : bool :=
  match d with
  | Detailed d => match TomlDependencyDetails.optional d with Some b => b | None => false end
  | Simple _ => false
  end.

(** [DefinedTomlDependency::features] *)
Definition features (d : t) : option (list string) :=
  match d with
  | Detailed d => TomlDependencyDetails.features d
  | Simple _ => None
  end.

(** [DefinedTomlDependency::is_version_specified] *)
Definition is_version_specified (d : t) : bool :=
  match d with
  | Detailed d => match TomlDependencyDetails.version d with Some _ => true | None => false end
  | Simple _ => true
  end.
End DefinedTomlDependency.

(** A [BTreeMap<String, DefinedTomlDependency>]. *)
Definition DepMap : Type := list (string * DefinedTomlDependency.t).

(** [WorkspaceDetails] (lines 177-180): the member's [{ workspace = true, .. }]. *)
Module WorkspaceDetails.
Record t : Type := mk {
  features : option (list string);
  optional : option bool
}.
End WorkspaceDetails.

(** [TomlWorkspace] (lines 1427-1452); [metadata], [readme], [publish],
    [badges] and [version] keep their rendered form. *)
Module TomlWorkspace.
Record t : Type := mk {
  members : option (list string);
  default_members : option (list string);
  exclude : option (list string);
  resolver : option string;
  dependencies : option DepMap;
  version : option string;
  authors : option (list string);
  description : option string;
  documentation : option string;
  readme : option string;
  homepage : option string;
  repository : option string;
  license : option string;
  license_file : option string;
  keywords : option (list string);
  categories : option (list string);
  publish : option (list string);
  edition : option string;
  badges : option (list (string * list (string * string)))
}.

Definition empty : t :=
  mk None None None None None None None None None None None None None None
     None None None None None.
End TomlWorkspace.

(** ** [ws_default] (lines 1211-1239) *)

Definition ws_undefined_msg (label : string) : string :=
  "error reading " ++ label ++ ": workspace root does not define [workspace." ++ label ++ "]".

Definition ws_unreadable_msg (label : string) : string :=
  "error reading " ++ label ++ ": could not read workspace root".

Definition ws_default {T : Type} (value : option (MaybeWorkspace T))
    (workspace : option TomlWorkspace.t) (f : TomlWorkspace.t -> option T)
    (label : string) : CargoResult (option T) :=
  match value, workspace with
  | None, _ => Ok None
  | Some (Defined value), _ => Ok (Some value)
  | Some Workspace, Some ws =>
      match f ws with
      | Some value => Ok (Some value)
      | None => Err (ws_undefined_msg label)
      end
  | Some Workspace, None => Err (ws_unreadable_msg label)
  end.

(** ** Source identities ([core/source/source_id.rs], consumed here) *)

Inductive GitReference : Type :=
| Branch (name : string)
| Tag (name : string)
| Rev (name : string)
| DefaultBranch.

Inductive SourceKind : Type :=
| GitKind (reference : GitReference)
| PathKind
| RegistryKind.

Record SourceId : Type := mkSourceId {
  sid_kind : SourceKind;
  sid_url : string
}.

Definition GitReference_eq_dec (a b : GitReference) : {a = b} + {a <> b}.
Proof. decide equality; apply string_dec. Defined.

Definition SourceKind_eq_dec (a b : SourceKind) : {a = b} + {a <> b}.
Proof. decide equality; apply GitReference_eq_dec. Defined.

Definition SourceId_eq_dec (a b : SourceId) : {a = b} + {a <> b}.
Proof. decide equality; [apply string_dec | apply SourceKind_eq_dec]. Defined.

(** [SourceId::for_git], [SourceId::for_path], [SourceId::for_registry]. *)
Definition for_git (url : string) (reference : GitReference) : SourceId :=
  mkSourceId (GitKind reference) url.
Definition for_path (p : string) : SourceId := mkSourceId PathKind p.
Definition for_registry (url : string) : SourceId := mkSourceId RegistryKind url.

Definition is_path (s : SourceId) : bool :=
  match sid_kind s with PathKind => true | _ => false end.

(** ** Collaborators outside [mod.rs] *)

Record Env : Type := mkEnv {
  (** [Features::require] on a feature name *)
  require : string -> CargoResult unit;
  (** [IntoUrl::into_url] and [Url::fragment] *)
  into_url : string -> CargoResult string;
  url_fragment : string -> option string;
  (** [SourceId::alt_registry(config, name)] and [SourceId::crates_io(config)] *)
  alt_registry : string -> CargoResult SourceId;
  crates_io : CargoResult SourceId;
  (** [Path::join] and [util::normalize_path] *)
  join_path : string -> string -> string;
  normalize_path : string -> string;
  (** [join_relative_path] (line 1415): [root.parent().join(p)], which fails
      when the joined path is not valid UTF-8 *)
  join_relative_path : option string -> string -> CargoResult string;
  (** the version-requirement parse of [Dependency::parse] *)
  parse_version_req : option string -> CargoResult unit;
  (** [validate_package_name(name, what, help)] *)
  validate_package_name : string -> string -> CargoResult unit;
  (** [name.parse::<Platform>()] and [Platform::check_cfg_attributes] *)
  parse_platform : string -> CargoResult string;
  check_cfg_attributes : string -> list string;
  (** [Path::parent], [path.strip_prefix(base).is_ok()], and
      [Path::file_name] followed by [to_str()] (a path read from TOML is
      valid UTF-8, so [to_str] succeeds) *)
  path_parent : string -> option string;
  strip_prefix_ok : string -> string -> bool;
  file_name : string -> option string;
  (** the failure of [SourceId::new(kind, url)] ([CanonicalUrl::new(&url)?]),
      called by [SourceId::for_git], [SourceId::for_registry] and
      [SourceId::for_path], the last after its own [path.into_url()?] *)
  source_id_new : SourceId -> CargoResult unit;
  (** [char::is_alphanumeric] on the Unicode scalar value of a [char] *)
  char_is_alphanumeric : Z -> bool
}.

(** [SourceId::for_git(&url, reference)], [SourceId::for_path(&path)] and
    [SourceId::for_registry(&url)]: [Err] when [SourceId::new] fails, otherwise
    the id [for_git url reference], [for_path path], [for_registry url]. *)
Definition sid_new (env : Env) (s : SourceId) : CargoResult SourceId :=
  let? _ := source_id_new env s in Ok s.

(** ** [DefinedTomlDependency::from_workspace_dependency] (lines 2222-2273) *)

(** The loop [for f in features { if !result.contains(&f) { result.push(f) } }]
    starting from [result = first.clone()]. *)
Definition push_missing (first second : list string) : list string :=
  fold_left (fun result f =>
               if existsb (String.eqb f) result then result else (result ++ [f])%list)
            second first.

Definition from_workspace_dependency (env : Env) (details : WorkspaceDetails.t)
    (ws_dep : DefinedTomlDependency.t) (root_path : option string)
    : CargoResult DefinedTomlDependency.t :=
  match ws_dep with
  | DefinedTomlDependency.Simple s =>
      Ok (DefinedTomlDependency.Detailed
            (TomlDependencyDetails.mk
               (Some s) None None None None None None None
               (match WorkspaceDetails.features details with
                | Some fs => Some fs
                | None => DefinedTomlDependency.features ws_dep
                end)
               (match WorkspaceDetails.optional details with
                | Some o => Some o
                | None => Some (DefinedTomlDependency.is_optional ws_dep)
                end)
               None None None None))
  | DefinedTomlDependency.Detailed d =>
      let? path :=
        match TomlDependencyDetails.path d with
        | Some p => let? p' := join_relative_path env root_path p in Ok (Some p')
        | None => Ok None
        end in
      Ok (DefinedTomlDependency.Detailed
            (TomlDependencyDetails.mk
               (TomlDependencyDetails.version d)
               (TomlDependencyDetails.registry d)
               (TomlDependencyDetails.registry_index d)
               path
               (TomlDependencyDetails.git d)
               (TomlDependencyDetails.branch d)
               (TomlDependencyDetails.tag d)
               (TomlDependencyDetails.rev d)
               (match WorkspaceDetails.features details, TomlDependencyDetails.features d with
                | None, None => None
                | Some features, None | None, Some features => Some features
                | Some ws_features, Some features => Some (push_missing ws_features features)
                end)
               (match WorkspaceDetails.optional details with
                | Some o => Some o
                | None => TomlDependencyDetails.optional d
                end)
               (TomlDependencyDetails.default_features d)
               (TomlDependencyDetails.default_features2 d)
               (TomlDependencyDetails.package d)
               (TomlDependencyDetails.public d)))
  end.

(** [DefinedTomlDependency::from_toml_dependency] (lines 2200-2220) on the
    [Workspace] variant: the entry must exist in [workspace.dependencies]. *)
Fixpoint map_get {V : Type} (k : string) (m : list (string * V)) : option V :=
  match m with
  | [] => None
  | (k', v) :: t => if String.eqb k k' then Some v else map_get k t
  end.

Definition from_workspace_entry (env : Env) (ws : WorkspaceDetails.t) (name : string)
    (ws_deps : DepMap) (root_path : option string) : CargoResult DefinedTomlDependency.t :=
  match map_get name ws_deps with
  | Some ws_dep => from_workspace_dependency env ws ws_dep root_path
  | None => Err ("could not find entry in [workspace.dependencies] for " ++ dq ++ name ++ dq)
  end.

(** ** Dependencies and the materialisation context *)

Inductive DepKind : Type := Normal | Development | Build.

(** The fields of [core::Dependency] that [to_dependency] sets. *)
Module Dependency.
Record t : Type := mk {
  name : string;
  version_req : option string;
  source_id : SourceId;
  features : list string;
  default_features : bool;
  optional : bool;
  platform : option string;
  kind : DepKind;
  explicit_name_in_toml : option string;
  public : bool;
  registry_id : option SourceId
}.

(** [Dependency::parse]: a dependency on [name] from [sid] with every other
    field at its default, once the version requirement parses. *)
Definition parse (env : Env) (name : string) (version : option string) (sid : SourceId)
    : CargoResult t :=
  let? _ := parse_version_req env version in
  Ok (mk name version sid [] true false None Normal None false None).

(** [Dependency::name_in_toml] *)
Definition name_in_toml (d : t) : string :=
  match explicit_name_in_toml d with Some n => n | None => name d end.
End Dependency.

(** [Context] (lines 1454-1464); [config] and [features] are in [Env]. *)
Module Context.
Record t : Type := mk {
  pkgid : option string;
  deps : list Dependency.t;
  source_id : SourceId;
  nested_paths : list string;
  warnings : list string;
  platform : option string;
  root : string
}.

Definition push_warning (msg : string) (cx : t) : t :=
  mk (pkgid cx) (deps cx) (source_id cx) (nested_paths cx)
     (warnings cx ++ [msg])%list (platform cx) (root cx).

Definition push_nested_path (p : string) (cx : t) : t :=
  mk (pkgid cx) (deps cx) (source_id cx) (nested_paths cx ++ [p])%list
     (warnings cx) (platform cx) (root cx).

Definition push_dep (d : Dependency.t) (cx : t) : t :=
  mk (pkgid cx) (deps cx ++ [d])%list (source_id cx) (nested_paths cx)
     (warnings cx) (platform cx) (root cx).

Definition set_platform (p : option string) (cx : t) : t :=
  mk (pkgid cx) (deps cx) (source_id cx) (nested_paths cx)
     (warnings cx) p (root cx).
End Context.

(** ** A state-and-error monad over the [&mut Context] *)

Definition M (A : Type) : Type := Context.t -> CargoResult (A * Context.t).

Definition mret {A : Type} (a : A) : M A := fun cx => Ok (a, cx).

Definition mbind {A B : Type} (m : M A) (k : A -> M B) : M B :=
  fun cx => match m cx with
            | Ok (a, cx') => k a cx'
            | Err e => Err e
            end.

Notation "'do!' x <- m ; k" := (mbind m (fun x => k))
  (at level 200, x pattern, m at level 100, k at level 200).

(** [expr?] on a plain [CargoResult] inside [M]. *)
Definition lift {A : Type} (r : CargoResult A) : M A :=
  fun cx => match r with Ok a => Ok (a, cx) | Err e => Err e end.

Definition bail {A : Type} (msg : string) : M A := fun _ => Err msg.

Definition warn (msg : string) : M unit := fun cx => Ok (tt, Context.push_warning msg cx).

Definition when (b : bool) (m : M unit) : M unit := if b then m else mret tt.

Definition get_cx : M Context.t := fun cx => Ok (cx, cx).

Definition is_some {A : Type} (o : option A) : bool :=
  match o with Some _ => true | None => false end.

(** ** [TomlDependencyDetails::to_dependency] (lines 2318-2496) *)

Section Messages.
Variable name_in_toml : string.

Definition no_source_msg : string :=
  "dependency (" ++ name_in_toml ++ ") specified without providing a local path, Git repository, or version to use. This will be considered an error in future versions".

Definition semver_metadata_msg (version : string) : string :=
  "version requirement `" ++ version ++ "` for dependency `" ++ name_in_toml ++ "` includes semver metadata which will be ignored, removing the metadata is recommended to avoid confusion".

Definition ignored_key_msg (key_name : string) : string :=
  "key `" ++ key_name ++ "` is ignored for dependency (" ++ name_in_toml ++ "). This will be considered an error in future versions".

Definition ambiguous_git_registry_msg : string :=
  "dependency (" ++ name_in_toml ++ ") specification is ambiguous. Only one of `git` or `registry` is allowed.".

Definition ambiguous_registry_index_msg : string :=
  "dependency (" ++ name_in_toml ++ ") specification is ambiguous. Only one of `registry` or `registry-index` is allowed.".

Definition ambiguous_git_path_msg : string :=
  "dependency (" ++ name_in_toml ++ ") specification is ambiguous. Only one of `git` or `path` is allowed. This will be considered an error in future versions".

Definition ambiguous_reference_msg : string :=
  "dependency (" ++ name_in_toml ++ ") specification is ambiguous. Only one of `branch`, `tag` or `rev` is allowed. This will be considered an error in future versions".

Definition url_fragment_msg (fragment : string) : string :=
  "URL fragment `#" ++ fragment ++ "` in git URL is ignored for dependency (" ++ name_in_toml ++ "). If you were trying to specify a specific git revision, use `rev = " ++ dq ++ fragment ++ dq ++ "` in the dependency declaration.".
End Messages.

Definition DepKind_debug (k : DepKind) : string :=
  match k with Normal => "Normal" | Development => "Development" | Build => "Build" end.

Definition public_kind_msg (k : DepKind) : string :=
  "'public' specifier can only be used on regular dependencies, not " ++ DepKind_debug k ++ " dependencies".

(** [for &(key, key_name) in &git_only_keys { if key.is_some() { warn } }] *)
Fixpoint warn_git_only_keys (name_in_toml : string) (keys : list (option string * string)) : M unit :=
  match keys with
  | [] => mret tt
  | (key, key_name) :: rest =>
      do! _ <- when (is_some key) (warn (ignored_key_msg name_in_toml key_name));
      warn_git_only_keys name_in_toml rest
  end.

(** [self.branch.map(Branch).or_else(|| self.tag.map(Tag)).or_else(|| self.rev.map(Rev))
     .unwrap_or_else(|| DefaultBranch)] *)
Definition git_reference (d : TomlDependencyDetails.t) : GitReference :=
  match TomlDependencyDetails.branch d with
  | Some b => Branch b
  | None =>
      match TomlDependencyDetails.tag d with
      | Some t => Tag t
      | None =>
          match TomlDependencyDetails.rev d with
          | Some r => Rev r
          | None => DefaultBranch
          end
      end
  end.

Definition new_source_id (env : Env) (d : TomlDependencyDetails.t) (name_in_toml : string)
    : M SourceId :=
  match TomlDependencyDetails.git d, TomlDependencyDetails.path d,
        TomlDependencyDetails.registry d, TomlDependencyDetails.registry_index d with
  | Some _, _, Some _, _ => bail (ambiguous_git_registry_msg name_in_toml)
  | Some _, _, _, Some _ => bail (ambiguous_git_registry_msg name_in_toml)
  | _, _, Some _, Some _ => bail (ambiguous_registry_index_msg name_in_toml)
  | Some git, maybe_path, _, _ =>
      do! _ <- when (is_some maybe_path) (warn (ambiguous_git_path_msg name_in_toml));
      let n_details := length (filter is_some [TomlDependencyDetails.branch d;
                                               TomlDependencyDetails.tag d;
                                               TomlDependencyDetails.rev d]) in
      do! _ <- when (Nat.ltb 1 n_details) (warn (ambiguous_reference_msg name_in_toml));
      let reference := git_reference d in
      do! loc <- lift (into_url env git);
      do! _ <- match url_fragment env loc with
               | Some fragment => warn (url_fragment_msg name_in_toml fragment)
               | None => mret tt
               end;
      lift (sid_new env (for_git loc reference))
  | None, Some path, _, _ =>
      fun cx =>
        let cx' := Context.push_nested_path path cx in
        if is_path (Context.source_id cx)
        then match sid_new env (for_path (normalize_path env (join_path env (Context.root cx) path))) with
             | Ok sid => Ok (sid, cx')
             | Err e => Err e
             end
        else Ok (Context.source_id cx, cx')
  | None, None, Some registry, None => lift (alt_registry env registry)
  | None, None, None, Some registry_index =>
      do! url <- lift (into_url env registry_index);
      lift (sid_new env (for_registry url))
  | None, None, None, None => lift (crates_io env)
  end.

(** The warnings [to_dependency] pushes before deriving the source (lines
    2324-2358). *)
Definition dependency_warnings (d : TomlDependencyDetails.t) (name_in_toml : string) : M unit :=
  do! _ <- when (negb (is_some (TomlDependencyDetails.version d))
                 && negb (is_some (TomlDependencyDetails.path d))
                 && negb (is_some (TomlDependencyDetails.git d)))
                (warn (no_source_msg name_in_toml));
  do! _ <- match TomlDependencyDetails.version d with
           | Some version =>
               when (contains_char "+"%char version)
                    (warn (semver_metadata_msg name_in_toml version))
           | None => mret tt
           end;
  when (negb (is_some (TomlDependencyDetails.git d)))
       (warn_git_only_keys name_in_toml
          [(TomlDependencyDetails.branch d, "branch");
           (TomlDependencyDetails.tag d, "tag");
           (TomlDependencyDetails.rev d, "rev")]).

(** From [let (pkg_name, explicit_name_in_toml) = ..] to [Ok(dep)] (lines
    2445-2495).  [Dependency::parse] and [Dependency::parse_no_deprecated]
    (chosen on [cx.pkgid]) differ only in deprecation notes printed to the
    shell. *)
Definition build_dependency (env : Env) (d : TomlDependencyDetails.t)
    (name_in_toml : string) (kind : option DepKind) (sid : SourceId) : M Dependency.t :=
  let '(pkg_name, explicit_name_in_toml) :=
    match TomlDependencyDetails.package d with
    | Some s => (s, Some name_in_toml)
    | None => (name_in_toml, None)
    end in
  do! dep <- lift (Dependency.parse env pkg_name (TomlDependencyDetails.version d) sid);
  do! cx <- get_cx;
  let features := match TomlDependencyDetails.features d with Some fs => fs | None => [] end in
  let default_features :=
    match TomlDependencyDetails.default_features d with
    | Some b => b
    | None => match TomlDependencyDetails.default_features2 d with Some b => b | None => true end
    end in
  let optional := match TomlDependencyDetails.optional d with Some b => b | None => false end in
  do! registry_id <- match TomlDependencyDetails.registry d with
                     | Some registry =>
                         do! rid <- lift (alt_registry env registry); mret (Some rid)
                     | None => mret (Dependency.registry_id dep)
                     end;
  do! registry_id <- match TomlDependencyDetails.registry_index d with
                     | Some registry_index =>
                         do! url <- lift (into_url env registry_index);
                         do! rid <- lift (sid_new env (for_registry url));
                         mret (Some rid)
                     | None => mret registry_id
                     end;
  let dep_kind := match kind with Some k => k | None => Dependency.kind dep end in
  do! _ <- match explicit_name_in_toml with
           | Some _ => lift (require env "rename-dependency")
           | None => mret tt
           end;
  do! public <- match TomlDependencyDetails.public d with
                | Some p =>
                    do! _ <- lift (require env "public-dependency");
                    match dep_kind with
                    | Normal => mret p
                    | k => bail (public_kind_msg k)
                    end
                | None => mret (Dependency.public dep)
                end;
  mret (Dependency.mk (Dependency.name dep) (Dependency.version_req dep)
          (Dependency.source_id dep) features default_features optional
          (Context.platform cx) dep_kind explicit_name_in_toml public registry_id).

(** [TomlDependencyDetails::to_dependency] *)
Definition details_to_dependency (env : Env) (d : TomlDependencyDetails.t)
    (name_in_toml : string) (kind : option DepKind) : M Dependency.t :=
  do! _ <- dependency_warnings d name_in_toml;
  do! sid <- new_source_id env d name_in_toml;
  build_dependency env d name_in_toml kind sid.

(** [DefinedTomlDependency::to_dependency] (lines 2274-2288) *)
Definition to_dependency (env : Env) (dep : DefinedTomlDependency.t)
    (name : string) (kind : option DepKind) : M Dependency.t :=
  match dep with
  | DefinedTomlDependency.Simple version =>
      details_to_dependency env
        (TomlDependencyDetails.mk (Some version) None None None None None None None
           None None None None None None)
        name kind
  | DefinedTomlDependency.Detailed details => details_to_dependency env details name kind
  end.

(** ** The dependency phase of [DefinedTomlManifest::into_real_manifest]
    (lines 1665-1758) *)

(** [DefinedTomlPlatform] (lines 2548-2558) *)
Module DefinedTomlPlatform.
Record t : Type := mk {
  dependencies : option DepMap;
  build_dependencies : option DepMap;
  build_dependencies2 : option DepMap;
  dev_dependencies : option DepMap;
  dev_dependencies2 : option DepMap
}.
End DefinedTomlPlatform.

(** The fields of [DefinedTomlPackage] (lines 1289-1322) used below: the
    package's name and the fields [prepare_for_publish] rewrites. *)
Module DefinedTomlPackage.
Record t : Type := mk {
  name : string;
  workspace : option string;
  license_file : option string;
  resolver : option string
}.

Definition set_workspace (v : option string) (p : t) : t :=
  mk (name p) v (license_file p) (resolver p).
Definition set_license_file (v : option string) (p : t) : t :=
  mk (name p) (workspace p) v (resolver p).
Definition set_resolver (v : option string) (p : t) : t :=
  mk (name p) (workspace p) (license_file p) v.
End DefinedTomlPackage.

(** The fields of [DefinedTomlManifest] (lines 361-379) used below. *)
Module DefinedTomlManifest.
Record t : Type := mk {
  cargo_features : option (list string);
  package : option DefinedTomlPackage.t;
  dependencies : option DepMap;
  dev_dependencies : option DepMap;
  build_dependencies : option DepMap;
  target : option (list (string * DefinedTomlPlatform.t));
  workspace : option TomlWorkspace.t
}.
End DefinedTomlManifest.

Definition or_else {A : Type} (a b : option A) : option A :=
  match a with Some _ => a | None => b end.

(** [process_dependencies] (lines 1680-1698) *)
Fixpoint process_dependency_entries (env : Env) (deps : DepMap) (kind : option DepKind)
    : M unit :=
  match deps with
  | [] => mret tt
  | (n, v) :: rest =>
      do! dep <- to_dependency env v n kind;
      do! _ <- lift (validate_package_name env (Dependency.name_in_toml dep) "dependency name");
      do! _ <- (fun cx => Ok (tt, Context.push_dep dep cx));
      process_dependency_entries env rest kind
  end.

Definition process_dependencies (env : Env) (new_deps : option DepMap) (kind : option DepKind)
    : M unit :=
  match new_deps with
  | Some dependencies => process_dependency_entries env dependencies kind
  | None => mret tt
  end.

(** [cx.platform = { let platform = name.parse()?; platform.check_cfg_attributes(..); Some(platform) }] *)
Definition enter_platform (env : Env) (name : string) : M unit :=
  do! platform <- lift (parse_platform env name);
  fun cx =>
    Ok (tt, Context.set_platform (Some platform)
              (fold_left (fun c w => Context.push_warning w c)
                         (check_cfg_attributes env platform) cx)).

(** [for (name, platform) in me.target.iter().flatten() { .. }] *)
Fixpoint process_targets (env : Env) (targets : list (string * DefinedTomlPlatform.t)) : M unit :=
  match targets with
  | [] => mret tt
  | (name, platform) :: rest =>
      do! _ <- enter_platform env name;
      do! _ <- process_dependencies env (DefinedTomlPlatform.dependencies platform) None;
      do! _ <- process_dependencies env
                 (or_else (DefinedTomlPlatform.build_dependencies platform)
                          (DefinedTomlPlatform.build_dependencies2 platform))
                 (Some Build);
      do! _ <- process_dependencies env
                 (or_else (DefinedTomlPlatform.dev_dependencies platform)
                          (DefinedTomlPlatform.dev_dependencies2 platform))
                 (Some Development);
      process_targets env rest
  end.

(** The declaration groups in source order: [workspace.dependencies] of the
    workspace root found by [find_workspace_root] (given as [ws]), then
    [dependencies], [dev-dependencies], [build-dependencies] and each
    [target.<platform>] table.  [me.replace] and [me.patch] come next in the
    source; they build the separate [replace]/[patch] tables, never push to
    [cx.deps], and are not modelled. *)
Definition collect_dependencies (env : Env) (ws : option TomlWorkspace.t)
    (me : DefinedTomlManifest.t) : M unit :=
  do! _ <- process_dependencies env
             (match ws with Some w => TomlWorkspace.dependencies w | None => None end) None;
  do! _ <- process_dependencies env (DefinedTomlManifest.dependencies me) None;
  do! _ <- process_dependencies env (DefinedTomlManifest.dev_dependencies me) (Some Development);
  do! _ <- process_dependencies env (DefinedTomlManifest.build_dependencies me) (Some Build);
  process_targets env (match DefinedTomlManifest.target me with Some t => t | None => [] end).

(** [BTreeMap::insert]: returns the previous value. *)
Fixpoint map_insert {V : Type} (k : string) (v : V) (m : list (string * V))
    : option V * list (string * V) :=
  match m with
  | [] => (None, [(k, v)])
  | (k', v') :: t =>
      if String.eqb k k' then (Some v', (k, v) :: t)
      else let '(prev, t') := map_insert k v t in (prev, (k', v') :: t')
  end.

Definition different_sources_msg (name : string) : string :=
  "Dependency '" ++ name ++ "' has different source paths depending on the build target. Each dependency must have a single canonical source path irrespective of build target.".

(** The [names_sources] loop (lines 1745-1757). *)
Fixpoint check_names_sources (names_sources : list (string * SourceId))
    (deps : list Dependency.t) : CargoResult unit :=
  match deps with
  | [] => Ok tt
  | dep :: rest =>
      let name := Dependency.name_in_toml dep in
      let '(prev, names_sources') := map_insert name (Dependency.source_id dep) names_sources in
      match prev with
      | Some p =>
          if SourceId_eq_dec p (Dependency.source_id dep)
          then check_names_sources names_sources' rest
          else Err (different_sources_msg name)
      | None => check_names_sources names_sources' rest
      end
  end.

(** From [let mut deps = Vec::new()] to the end of the [names_sources] block:
    the dependency list of the summary, or the first error. *)
Definition into_real_manifest_deps (env : Env) (ws : option TomlWorkspace.t)
    (me : DefinedTomlManifest.t) (pkgid : string) (source_id : SourceId)
    (nested_paths warnings : list string) (package_root : string)
    : CargoResult (list Dependency.t * Context.t) :=
  let cx := Context.mk (Some pkgid) [] source_id nested_paths warnings None package_root in
  match collect_dependencies env ws me cx with
  | Ok (_, cx') =>
      let? _ := check_names_sources [] (Context.deps cx') in
      Ok (Context.deps cx', cx')
  | Err e => Err e
  end.

(** ** [TomlProfile] (lines 680-695) and its validation (lines 742-863) *)

Module TomlProfile.
(** [opt_level], [lto], [debug] and [strip] keep their rendered form; the
    keys of [package] are the rendered [ProfilePackageSpec]s. *)
Inductive t : Type := mk {
  opt_level : option string;
  lto : option string;
  codegen_units : option nat;
  debug : option string;
  debug_assertions : option bool;
  rpath : option bool;
  panic : option string;
  overflow_checks : option bool;
  incremental : option bool;
  package : option (list (string * t));
  build_override : option t;
  dir_name : option string;
  inherits : option string;
  strip : option string
}.

(** [TomlProfile::default()] *)
Definition default : t :=
  mk None None None None None None None None None None None None None None.

(** A [&str] is a sequence of UTF-8 bytes; [name.chars()] yields its
    characters, here each as the bytes that encode it: a character starts at
    every byte that is not a continuation byte [0b10xxxxxx]. *)
Definition is_utf8_continuation (b : ascii) : bool :=
  let n := nat_of_ascii b in Nat.leb 128 n && Nat.ltb n 192.

Fixpoint chars_from (cur : string) (s : string) : list string :=
  match s with
  | EmptyString => match cur with EmptyString => [] | _ => [cur] end
  | String b rest =>
      if is_utf8_continuation b then chars_from (cur ++ String b EmptyString) rest
      else (match cur with EmptyString => [] | _ => [cur] end
            ++ chars_from (String b EmptyString) rest)%list
  end.

Definition chars (s : string) : list string := chars_from EmptyString s.

Definition byte_value (b : ascii) : Z := Z.of_nat (nat_of_ascii b).

(** The Unicode scalar value of the [char] a UTF-8 sequence encodes. *)
Definition code_point (ch : string) : Z :=
  match list_ascii_of_string ch with
  | [b0] => byte_value b0
  | [b0; b1] =>
      Z.lor (Z.shiftl (Z.land (byte_value b0) 31) 6) (Z.land (byte_value b1) 63)
  | [b0; b1; b2] =>
      Z.lor (Z.shiftl (Z.land (byte_value b0) 15) 12)
        (Z.lor (Z.shiftl (Z.land (byte_value b1) 63) 6) (Z.land (byte_value b2) 63))
  | [b0; b1; b2; b3] =>
      Z.lor (Z.shiftl (Z.land (byte_value b0) 7) 18)
        (Z.lor (Z.shiftl (Z.land (byte_value b1) 63) 12)
          (Z.lor (Z.shiftl (Z.land (byte_value b2) 63) 6) (Z.land (byte_value b3) 63)))
  | _ => 65533
  end.

(** [name.chars().find(|ch| !ch.is_alphanumeric() && *ch != '_' && *ch != '-')] *)
Fixpoint find_invalid_char (env : Env) (chs : list string) : option string :=
  match chs with
  | [] => None
  | ch :: rest =>
      if negb (char_is_alphanumeric env (code_point ch))
         && negb (Z.eqb (code_point ch) 95) && negb (Z.eqb (code_point ch) 45)
      then Some ch else find_invalid_char env rest
  end.

(** [TomlProfile::validate_name] *)
Definition validate_name (env : Env) (name what : string) : CargoResult unit :=
  match find_invalid_char env (chars name) with
  | Some ch =>
      Err ("Invalid character `" ++ ch ++ "` in " ++ what ++ ": `" ++ name ++ "`")
  | None =>
      if String.eqb name "package" || String.eqb name "build" then
        Err ("Invalid " ++ what ++ ": `" ++ name ++ "`")
      else if String.eqb name "debug" && String.eqb what "profile" then
        (if String.eqb what "profile name" then Ok tt
         else Err ("Invalid " ++ what ++ ": `" ++ name ++ "`"))
      else if String.eqb name "doc" && String.eqb what "dir-name" then
        Err ("Invalid " ++ what ++ ": `" ++ name ++ "`")
      else Ok tt
  end.

Definition nested_package_msg : string := "package-specific profiles cannot be nested".
Definition nested_build_override_msg : string := "build-override profiles cannot be nested".
Definition forbidden_key_msg (key which : string) : string :=
  "`" ++ key ++ "` may not be specified in a `" ++ which ++ "` profile".

(** [TomlProfile::validate_override] *)
Definition validate_override (p : t) (which : string) : CargoResult unit :=
  if is_some (package p) then Err nested_package_msg
  else if is_some (build_override p) then Err nested_build_override_msg
  else if is_some (panic p) then Err (forbidden_key_msg "panic" which)
  else if is_some (lto p) then Err (forbidden_key_msg "lto" which)
  else if is_some (rpath p) then Err (forbidden_key_msg "rpath" which)
  else Ok tt.

(** [for profile in packages.values() { profile.validate_override("package")?; }] *)
Fixpoint validate_package_overrides (packages : list (string * t)) : CargoResult unit :=
  match packages with
  | [] => Ok tt
  | (_, profile) :: rest =>
      let? _ := validate_override profile "package" in
      validate_package_overrides rest
  end.

Definition is_builtin_profile (name : string) : bool :=
  existsb (String.eqb name) ["dev"; "release"; "bench"; "test"; "doc"].

(** [TomlProfile::validate]: the pushed warnings are returned. *)
Definition validate (env : Env) (p : t) (name : string) (warnings : list string)
    : CargoResult (list string) :=
  let warnings :=
    if String.eqb name "debug"
    then (warnings ++ ["use `[profile.dev]` to configure debug builds"])%list
    else warnings in
  let? _ := match build_override p with
            | Some profile =>
                let? _ := require env "profile-overrides" in
                validate_override profile "build-override"
            | None => Ok tt
            end in
  let? _ := match package p with
            | Some packages =>
                let? _ := require env "profile-overrides" in
                validate_package_overrides packages
            | None => Ok tt
            end in
  let? _ := if is_builtin_profile name then Ok tt else require env "named-profiles" in
  let? _ := validate_name env name "profile name" in
  let? _ := if is_some (inherits p) then require env "named-profiles" else Ok tt in
  let? _ := if is_some (dir_name p) then require env "named-profiles" else Ok tt in
  let? _ := match dir_name p with
            | Some dn => validate_name env dn "dir-name"
            | None => Ok tt
            end in
  let? _ := match inherits p with
            | Some i => validate_name env i "inherits"
            | None => Ok tt
            end in
  let warnings :=
    if String.eqb name "doc"
    then (warnings ++ ["profile `doc` is deprecated and has no effect"])%list
    else if (String.eqb name "test" || String.eqb name "bench") && is_some (panic p)
    then (warnings ++ [("`panic` setting is ignored for `" ++ name ++ "` profile")%string])%list
    else warnings in
  let? _ := match panic p with
            | Some pa =>
                if negb (String.eqb pa "unwind") && negb (String.eqb pa "abort")
                then Err ("`panic` setting of `" ++ pa ++ "` is not a valid setting,must be `unwind` or `abort`")
                else Ok tt
            | None => Ok tt
            end in
  let? _ := if is_some (strip p) then require env "strip" else Ok tt in
  Ok warnings.
End TomlProfile.

(** ** [do_read_manifest] (lines 53-106) *)

(** [TargetKind] of [core::manifest]. *)
Inductive TargetKind : Type :=
| Lib | Bin | Test | Bench | ExampleLib | ExampleBin | CustomBuild.

Record Target : Type := mkTarget {
  target_name : string;
  target_kind : TargetKind
}.

(** [Target::is_custom_build] *)
Definition is_custom_build (t : Target) : bool :=
  match target_kind t with CustomBuild => true | _ => false end.

Module Manifest.
Record t : Type := mk {
  targets : list Target;
  warnings : list string
}.
End Manifest.

Module VirtualManifest.
Record t : Type := mk {
  warnings : list string
}.
End VirtualManifest.

Inductive EitherManifest : Type :=
| Real (m : Manifest.t)
| Virtual (m : VirtualManifest.t).

Definition newline : string := String "010"%char EmptyString.

Definition ws_optional_msg (name : string) : string :=
  name ++ " is optional, but workspace dependencies cannot be optional".

Definition no_targets_msg : string :=
  "no targets specified in the manifest" ++ newline
  ++ "either src/lib.rs, src/main.rs, a [lib] section, or [[bin]] section must be present".

(** [for (name, dep) in deps { if dep.is_optional() { bail!(..) } }] *)
Fixpoint check_ws_deps_not_optional (deps : DepMap) : CargoResult unit :=
  match deps with
  | [] => Ok tt
  | (name, dep) :: rest =>
      if DefinedTomlDependency.is_optional dep then Err (ws_optional_msg name)
      else check_ws_deps_not_optional rest
  end.

(** The [add_unused] closure. *)
Definition add_unused (unused : list string) (warnings : list string) : list string :=
  fold_left (fun ws key =>
               let ws := (ws ++ [("unused manifest key: " ++ key)%string])%list in
               if String.eqb key "profiles.debug"
               then (ws ++ ["use `[profile.dev]` to configure debug builds"])%list
               else ws)
            unused warnings.

Section ReadManifest.
(** The parsed document ([ParseOutput.manifest]), its conversion
    [DefinedTomlManifest::from_toml_manifest], and the two constructors
    [into_real_manifest] / [into_virtual_manifest], each returning the
    manifest and the nested paths. *)
Variable TomlManifest : Type.
Variable from_toml_manifest : TomlManifest -> CargoResult DefinedTomlManifest.t.
Variable into_real_manifest :
  DefinedTomlManifest.t -> CargoResult (Manifest.t * list string).
Variable into_virtual_manifest :
  DefinedTomlManifest.t -> CargoResult (VirtualManifest.t * list string).

Definition do_read_manifest (raw : TomlManifest) (unused : list string)
    : CargoResult (EitherManifest * list string) :=
  let? manifest := from_toml_manifest raw in
  let? _ := match DefinedTomlManifest.workspace manifest with
            | Some ws =>
                match TomlWorkspace.dependencies ws with
                | Some deps => check_ws_deps_not_optional deps
                | None => Ok tt
                end
            | None => Ok tt
            end in
  match DefinedTomlManifest.package manifest with
  | Some _ =>
      let? (m, paths) := into_real_manifest manifest in
      let m := Manifest.mk (Manifest.targets m) (add_unused unused (Manifest.warnings m)) in
      if forallb is_custom_build (Manifest.targets m) then Err no_targets_msg
      else Ok (Real m, paths)
  | None =>
      let? (m, paths) := into_virtual_manifest manifest in
      let m := VirtualManifest.mk (add_unused unused (VirtualManifest.warnings m)) in
      Ok (Virtual m, paths)
  end.
End ReadManifest.

(** ** Sample inputs *)

(** [char::is_alphanumeric] below U+0100 (letters, [Nd] and [No] digits of
    ASCII and Latin-1); the sample environments answer [false] above. *)
Definition is_alphanumeric_sample (c : Z) : bool :=
  (((48 <=? c) && (c <=? 57)) || ((65 <=? c) && (c <=? 90)) || ((97 <=? c) && (c <=? 122))
   || (c =? 170) || (c =? 178) || (c =? 179) || (c =? 181) || (c =? 185) || (c =? 186)
   || ((188 <=? c) && (c <=? 190)) || ((192 <=? c) && (c <=? 214))
   || ((216 <=? c) && (c <=? 246)) || ((248 <=? c) && (c <=? 255)))%Z.

(** The split of a path at its last [/]. *)
Fixpoint split_last_slash (p : string) : option (string * string) :=
  match p with
  | EmptyString => None
  | String c rest =>
      match split_last_slash rest with
      | Some (dir, base) => Some (String c dir, base)
      | None => if Ascii.eqb c "/"%char then Some (EmptyString, rest) else None
      end
  end.

(** [Path::parent], [Path::strip_prefix] and [Path::file_name] on paths
    without [.] or [..] components and without a trailing [/]. *)
Definition sample_parent (p : string) : option string :=
  match split_last_slash p with
  | Some (dir, _) => Some dir
  | None => if String.eqb p "" then None else Some ""
  end.

Fixpoint starts_with (pre s : string) : bool :=
  match pre, s with
  | EmptyString, _ => true
  | String a pre', String b s' => Ascii.eqb a b && starts_with pre' s'
  | String _ _, EmptyString => false
  end.

Definition sample_strip_prefix_ok (path base : string) : bool :=
  String.eqb path base || starts_with (base ++ "/") path.

Definition sample_file_name (p : string) : option string :=
  let base := match split_last_slash p with Some (_, base) => base | None => p end in
  if String.eqb base "" || String.eqb base ".." then None else Some base.

(** An environment in which every collaborator succeeds: URLs parse to
    themselves without fragment, every feature is enabled, registries resolve
    by name, [SourceId::new] accepts every URL. *)
Definition env0 : Env :=
  mkEnv (fun _ => Ok tt)
        (fun s => Ok s)
        (fun _ => None)
        (fun n => Ok (mkSourceId RegistryKind ("registry+" ++ n)))
        (Ok (for_registry "https://github.com/rust-lang/crates.io-index"))
        (fun a b => a ++ "/" ++ b)
        (fun p => p)
        (fun r p => match r with
                    | Some r => Ok (r ++ "/../" ++ p)
                    | None => Err "no workspace root"
                    end)
        (fun _ => Ok tt)
        (fun _ _ => Ok tt)
        (fun s => Ok s)
        (fun _ => [])
        sample_parent sample_strip_prefix_ok sample_file_name
        (fun _ => Ok tt)
        is_alphanumeric_sample.

(** The context [into_real_manifest] starts from, for a registry package. *)
Definition cx0 : Context.t :=
  Context.mk (Some "member 0.1.0") [] (for_registry "https://github.com/rust-lang/crates.io-index")
             [] [] None "/ws/member".

Definition details_with_git (git tag branch : option string) : TomlDependencyDetails.t :=
  TomlDependencyDetails.mk None None None None git branch tag None None None None None None None.

(** [{ git = "https://example.com/repo", tag = "v1", branch = "main" }] *)
Definition scenario_c : TomlDependencyDetails.t :=
  details_with_git (Some "https://example.com/repo") (Some "v1") (Some "main").

(** [{ git = "https://example.com/repo", registry = "alt" }] *)
Definition git_and_registry : TomlDependencyDetails.t :=
  TomlDependencyDetails.mk None (Some "alt") None None (Some "https://example.com/repo")
    None None None None None None None None None.

(** A detailed workspace entry [{ version = "2.0", features = ["a"] }]. *)
Definition ws_entry_with_a : DefinedTomlDependency.t :=
  DefinedTomlDependency.Detailed
    (TomlDependencyDetails.mk (Some "2.0") None None None None None None None
       (Some ["a"]) None None None None None).

(** [[profile.release.package.foo]] with [panic = "abort"]. *)
Definition scenario_d : TomlProfile.t :=
  TomlProfile.mk None None None None None None None None None
    (Some [("foo", TomlProfile.mk None None None None None None (Some "abort") None None
                     None None None None None)])
    None None None None.

Definition build_script : Target := mkTarget "build-script-build" CustomBuild.
Definition main_bin : Target := mkTarget "member" Bin.

(** [[package] name = "member"] *)
Definition package_member : DefinedTomlPackage.t :=
  DefinedTomlPackage.mk "member" None None None.

(** A manifest with a package, and a workspace table whose only dependency
    is [foo = { version = "1", optional = true }]. *)
Definition manifest_with_optional_ws_dep : DefinedTomlManifest.t :=
  DefinedTomlManifest.mk None (Some package_member) None None None None
    (Some (TomlWorkspace.mk None None None None
             (Some [("foo", DefinedTomlDependency.Detailed
                              (TomlDependencyDetails.mk (Some "1") None None None None None
                                 None None None (Some true) None None None None))])
             None None None None None None None None None None None None None None)).

Definition manifest_member : DefinedTomlManifest.t :=
  DefinedTomlManifest.mk None (Some package_member) None None None None None.

(** Two platform tables declaring [bar] from two different git repositories. *)
Definition manifest_two_sources : DefinedTomlManifest.t :=
  DefinedTomlManifest.mk None (Some package_member) None None None
    (Some [("cfg(unix)", DefinedTomlPlatform.mk
                           (Some [("bar", DefinedTomlDependency.Detailed
                                            (details_with_git (Some "https://a.example/bar") None None))])
                           None None None None);
           ("cfg(windows)", DefinedTomlPlatform.mk
                              (Some [("bar", DefinedTomlDependency.Detailed
                                               (details_with_git (Some "https://b.example/bar") None None))])
                              None None None None)])
    None.

(** A workspace root table with [[workspace.dependencies] serde = "1.0"]. *)
Definition ws_with_serde : TomlWorkspace.t :=
  TomlWorkspace.mk None None None None (Some [("serde", DefinedTomlDependency.Simple "1.0")])
    None None None None None None None None None None None None None None.

(** ** [TomlProfile::merge] (lines 865-940) and [TomlProfiles::validate]
    (lines 558-575) *)

Module TomlProfileMerge.
(** [self.merge(profile)]: every key [profile] sets overwrites [self]'s; the
    [package] maps are merged entry by entry ([get_mut] then [merge], or
    [insert] when the spec is new) and the build overrides recursively. *)
Fixpoint merge (self profile : TomlProfile.t) {struct profile} : TomlProfile.t :=
  TomlProfile.mk
    (or_else (TomlProfile.opt_level profile) (TomlProfile.opt_level self))
    (or_else (TomlProfile.lto profile) (TomlProfile.lto self))
    (or_else (TomlProfile.codegen_units profile) (TomlProfile.codegen_units self))
    (or_else (TomlProfile.debug profile) (TomlProfile.debug self))
    (or_else (TomlProfile.debug_assertions profile) (TomlProfile.debug_assertions self))
    (or_else (TomlProfile.rpath profile) (TomlProfile.rpath self))
    (or_else (TomlProfile.panic profile) (TomlProfile.panic self))
    (or_else (TomlProfile.overflow_checks profile) (TomlProfile.overflow_checks self))
    (or_else (TomlProfile.incremental profile) (TomlProfile.incremental self))
    (match TomlProfile.package profile with
     | Some other_package =>
         match TomlProfile.package self with
         | Some self_package =>
             Some ((fix merge_packages (self_package other_package : list (string * TomlProfile.t))
                      : list (string * TomlProfile.t) :=
                      match other_package with
                      | [] => self_package
                      | (spec, other_pkg_profile) :: rest =>
                          merge_packages
                            (match map_get spec self_package with
                             | Some p => snd (map_insert spec (merge p other_pkg_profile) self_package)
                             | None => snd (map_insert spec other_pkg_profile self_package)
                             end)
                            rest
                      end) self_package other_package)
         | None => Some other_package
         end
     | None => TomlProfile.package self
     end)
    (match TomlProfile.build_override profile with
     | Some other_bo =>
         match TomlProfile.build_override self with
         | Some self_bo => Some (merge self_bo other_bo)
         | None => Some other_bo
         end
     | None => TomlProfile.build_override self
     end)
    (or_else (TomlProfile.dir_name profile) (TomlProfile.dir_name self))
    (or_else (TomlProfile.inherits profile) (TomlProfile.inherits self))
    (or_else (TomlProfile.strip profile) (TomlProfile.strip self)).

(** The keys of every [package] map, at every depth, are distinct, as in a
    [BTreeMap]. *)
Fixpoint keys_unique (p : TomlProfile.t) : Prop :=
  (match TomlProfile.package p with
   | Some l =>
       NoDup (map fst l)
       /\ (fix all (l : list (string * TomlProfile.t)) : Prop :=
             match l with
             | [] => True
             | (_, v) :: rest => keys_unique v /\ all rest
             end) l
   | None => True
   end)
  /\ (match TomlProfile.build_override p with
      | Some b => keys_unique b
      | None => True
      end).
End TomlProfileMerge.

Module TomlProfiles.
(** [for (name, profile) in &self.0 { profile.validate(name, features, warnings)?; }] *)
Fixpoint validate (env : Env) (profiles : list (string * TomlProfile.t)) (warnings : list string)
    : CargoResult (list string) :=
  match profiles with
  | [] => Ok warnings
  | (name, profile) :: rest =>
      let? warnings := TomlProfile.validate env profile name warnings in
      validate env rest warnings
  end.
End TomlProfiles.

(** ** Conversions of the dependency tables (lines 451-556, 2190-2220,
    2573-2617) *)

(** [TomlDependency] (lines 169-175): as written in the document. *)
Module TomlDependency.
Inductive t : Type :=
| Simple (version : string)
| Detailed (details : TomlDependencyDetails.t)
| Workspace (details : WorkspaceDetails.t).
End TomlDependency.

Definition TomlDepMap : Type := list (string * TomlDependency.t).

(** [TomlDependency::from_defined_dependency] *)
Definition from_defined_dependency (dep : DefinedTomlDependency.t) : TomlDependency.t :=
  match dep with
  | DefinedTomlDependency.Simple s => TomlDependency.Simple s
  | DefinedTomlDependency.Detailed detailed => TomlDependency.Detailed detailed
  end.

(** [DefinedTomlDependency::from_toml_dependency]; the [Workspace] arm is
    [from_workspace_entry]. *)
Definition from_toml_dependency (env : Env) (dep : TomlDependency.t) (name : string)
    (ws_deps : DepMap) (root_path : option string) : CargoResult DefinedTomlDependency.t :=
  match dep with
  | TomlDependency.Simple s => Ok (DefinedTomlDependency.Simple s)
  | TomlDependency.Detailed detailed => Ok (DefinedTomlDependency.Detailed detailed)
  | TomlDependency.Workspace ws => from_workspace_entry env ws name ws_deps root_path
  end.

(** [deps.iter().map(|(key, val)| Ok((key.clone(), f(&*key, val)?))).collect()] *)
Fixpoint map_entries {T R : Type} (f : string -> T -> CargoResult R) (deps : list (string * T))
    : CargoResult (list (string * R)) :=
  match deps with
  | [] => Ok []
  | (key, val) :: rest =>
      let? r := f key val in
      let? rest' := map_entries f rest in
      Ok ((key, r) :: rest')
  end.

(** [map_btree] *)
Definition map_btree {T R : Type} (tree : option (list (string * T)))
    (f : string -> T -> CargoResult R) : CargoResult (option (list (string * R))) :=
  match tree with
  | None => Ok None
  | Some deps => let? m := map_entries f deps in Ok (Some m)
  end.

(** [to_defined_dependencies] *)
Definition to_defined_dependencies (env : Env) (dependencies : option TomlDepMap)
    (ws_dependencies : option DepMap) (root_path : option string)
    : CargoResult (option DepMap) :=
  let ws_deps := match ws_dependencies with Some w => w | None => [] end in
  map_btree dependencies (fun key dep => from_toml_dependency env dep key ws_deps root_path).

(** [to_toml_dependencies]: the closure never fails, so the [unwrap] never
    panics. *)
Definition to_toml_dependencies (dependencies : option DepMap) : option TomlDepMap :=
  match map_btree dependencies (fun _ dep => Ok (from_defined_dependency dep)) with
  | Ok m => m
  | Err _ => None
  end.

(** [TomlPlatform] (lines 2560-2571) *)
Module TomlPlatform.
Record t : Type := mk {
  dependencies : option TomlDepMap;
  build_dependencies : option TomlDepMap;
  build_dependencies2 : option TomlDepMap;
  dev_dependencies : option TomlDepMap;
  dev_dependencies2 : option TomlDepMap
}.
End TomlPlatform.

(** [TomlPlatform::from_defined_platform] *)
Definition from_defined_platform (defined_platform : DefinedTomlPlatform.t) : TomlPlatform.t :=
  TomlPlatform.mk
    (to_toml_dependencies (DefinedTomlPlatform.dependencies defined_platform))
    (to_toml_dependencies (DefinedTomlPlatform.build_dependencies defined_platform))
    None
    (to_toml_dependencies (DefinedTomlPlatform.dev_dependencies defined_platform))
    None.

(** [DefinedTomlPlatform::from_toml_platform] *)
Definition from_toml_platform (env : Env) (toml_platform : TomlPlatform.t) (ws_deps : DepMap)
    (root_path : option string) : CargoResult DefinedTomlPlatform.t :=
  let build_dependencies :=
    or_else (TomlPlatform.build_dependencies toml_platform)
            (TomlPlatform.build_dependencies2 toml_platform) in
  let dev_dependencies :=
    or_else (TomlPlatform.dev_dependencies toml_platform)
            (TomlPlatform.dev_dependencies2 toml_platform) in
  let? dependencies :=
    to_defined_dependencies env (TomlPlatform.dependencies toml_platform) (Some ws_deps) root_path in
  let? build_dependencies :=
    to_defined_dependencies env build_dependencies (Some ws_deps) root_path in
  let? dev_dependencies :=
    to_defined_dependencies env dev_dependencies (Some ws_deps) root_path in
  Ok (DefinedTomlPlatform.mk dependencies build_dependencies None dev_dependencies None).

(** ** The dependency tables of [prepare_for_publish] (lines 1467-1563),
    [map_deps] and [map_dependency] (lines 494-539) *)

(** [map_dependency] *)
Definition map_dependency (env : Env) (dep : DefinedTomlDependency.t)
    : CargoResult DefinedTomlDependency.t :=
  match dep with
  | DefinedTomlDependency.Detailed d =>
      let? registry_index :=
        match TomlDependencyDetails.registry d with
        | Some registry =>
            let? src := alt_registry env registry in Ok (Some (sid_url src))
        | None => Ok (TomlDependencyDetails.registry_index d)
        end in
      Ok (DefinedTomlDependency.Detailed
            (TomlDependencyDetails.mk
               (TomlDependencyDetails.version d)
               None
               registry_index
               None None None None None
               (TomlDependencyDetails.features d)
               (TomlDependencyDetails.optional d)
               (TomlDependencyDetails.default_features d)
               (TomlDependencyDetails.default_features2 d)
               (TomlDependencyDetails.package d)
               (TomlDependencyDetails.public d)))
  | DefinedTomlDependency.Simple s =>
      Ok (DefinedTomlDependency.Detailed
            (TomlDependencyDetails.mk (Some s) None None None None None None None
               None None None None None None))
  end.

(** [map_deps] *)
Definition map_deps (env : Env) (deps : option DepMap)
    (filter : DefinedTomlDependency.t -> bool) : CargoResult (option DepMap) :=
  match deps with
  | None => Ok None
  | Some deps =>
      let? deps := map_entries (fun _ v => map_dependency env v)
                     (List.filter (fun kv => filter (snd kv)) deps) in
      Ok (Some deps)
  end.

(** The [target] table of [prepare_for_publish]. *)
Fixpoint publish_targets (env : Env) (target_map : list (string * DefinedTomlPlatform.t))
    : CargoResult (list (string * DefinedTomlPlatform.t)) :=
  let all := fun _ : DefinedTomlDependency.t => true in
  match target_map with
  | [] => Ok []
  | (k, v) :: rest =>
      let? dependencies := map_deps env (DefinedTomlPlatform.dependencies v) all in
      let? dev_dependencies :=
        map_deps env (or_else (DefinedTomlPlatform.dev_dependencies v)
                              (DefinedTomlPlatform.dev_dependencies2 v))
          DefinedTomlDependency.is_version_specified in
      let? build_dependencies :=
        map_deps env (or_else (DefinedTomlPlatform.build_dependencies v)
                              (DefinedTomlPlatform.build_dependencies2 v)) all in
      let? rest' := publish_targets env rest in
      Ok ((k, DefinedTomlPlatform.mk dependencies build_dependencies None dev_dependencies None)
            :: rest')
  end.

(** The [cargo_features] update of [prepare_for_publish] (lines 1476-1489),
    given [package.resolver] as set from [ws.resolve_behavior()]. *)
Definition add_resolver_feature (resolver : option string)
    (cargo_features : option (list string)) : option (list string) :=
  if is_some resolver then
    match cargo_features with
    | None => Some ["resolver"]
    | Some feats =>
        if negb (existsb (fun feat => String.eqb feat "resolver") feats)
        then Some (feats ++ ["resolver"])%list
        else Some feats
    end
  else cargo_features.

Definition unwrap_none_msg : string := "called `Option::unwrap()` on a `None` value".

(** [Option::unwrap]: its panic ends the call without a value; it is
    modelled as an [Err] carrying the panic message. *)
Definition unwrap {A : Type} (o : option A) : CargoResult A :=
  match o with
  | Some a => Ok a
  | None => Err unwrap_none_msg
  end.

(** [DefinedTomlManifest::prepare_for_publish(ws, manifest_file)] (lines
    1467-1563), with [resolver] the value of
    [ws.resolve_behavior().to_manifest()]. *)
Definition prepare_for_publish (env : Env) (resolver : option string) (manifest_file : string)
    (me : DefinedTomlManifest.t) : CargoResult DefinedTomlManifest.t :=
  let? package_root := unwrap (path_parent env manifest_file) in
  let? package := unwrap (DefinedTomlManifest.package me) in
  let package := DefinedTomlPackage.set_workspace None package in
  let package := DefinedTomlPackage.set_resolver resolver package in
  let cargo_features :=
    add_resolver_feature (DefinedTomlPackage.resolver package)
      (DefinedTomlManifest.cargo_features me) in
  let? package :=
    match DefinedTomlPackage.license_file package with
    | Some license_file =>
        let abs_license_path :=
          normalize_path env (join_path env package_root license_file) in
        if negb (strip_prefix_ok env abs_license_path package_root) then
          let? fname := unwrap (file_name env license_file) in
          Ok (DefinedTomlPackage.set_license_file (Some fname) package)
        else Ok package
    | None => Ok package
    end in
  let all := fun _ : DefinedTomlDependency.t => true in
  let? dependencies := map_deps env (DefinedTomlManifest.dependencies me) all in
  let? dev_dependencies :=
    map_deps env (DefinedTomlManifest.dev_dependencies me)
      DefinedTomlDependency.is_version_specified in
  let? build_dependencies := map_deps env (DefinedTomlManifest.build_dependencies me) all in
  let? target :=
    match DefinedTomlManifest.target me with
    | Some target_map => let? v := publish_targets env target_map in Ok (Some v)
    | None => Ok None
    end in
  Ok (DefinedTomlManifest.mk cargo_features (Some package) dependencies dev_dependencies
        build_dependencies target None).

(** ** Inherited package fields (lines 1198-1209, 1324-1413, 984-992,
    2163-2175) *)

(** [MaybeWorkspace::from_option], used by [into_toml_manifest]. *)
Definition from_option {T : Type} (value : option T) : option (MaybeWorkspace T) :=
  match value with
  | Some value => Some (Defined value)
  | None => None
  end.

Module StringOrBool.
Inductive t : Type :=
| String (value : string)
| Bool (value : bool).
End StringOrBool.

(** [StringOrBool::string_or_default] *)
Definition string_or_default (sb : StringOrBool.t) (default_value : string) : option string :=
  match sb with
  | StringOrBool.String value => Some value
  | StringOrBool.Bool true => Some default_value
  | StringOrBool.Bool false => None
  end.

Definition DEFAULT_README_FILES : list string := ["README.md"; "README.txt"; "README"].

Section PackageFiles.
(** [Path::is_file] *)
Variable is_file : string -> bool.

Fixpoint find_readme (env : Env) (package_root : string) (files : list string) : option string :=
  match files with
  | [] => None
  | readme_filename :: rest =>
      if is_file (join_path env package_root readme_filename) then Some readme_filename
      else find_readme env package_root rest
  end.

(** [default_readme_from_package_root] *)
Definition default_readme_from_package_root (env : Env) (package_root : string) : option string :=
  find_readme env package_root DEFAULT_README_FILES.

Definition readme_undefined_msg : string :=
  "error reading readme: workspace root does not defined [workspace.readme]".

Definition license_file_undefined_msg : string :=
  "error reading license-file: workspace root does not defined [workspace.license-file]".

(** The [readme] of [DefinedTomlPackage::from_toml_project]; [ws_readme] is
    [ws.and_then(|ws| ws.readme.as_ref())]. *)
Definition resolve_readme (env : Env) (readme : option (MaybeWorkspace StringOrBool.t))
    (ws_readme : option StringOrBool.t) (root_path : option string) (package_root : string)
    : CargoResult (option string) :=
  match readme, ws_readme with
  | None, _ => Ok (default_readme_from_package_root env package_root)
  | Some (Defined defined), _ => Ok (string_or_default defined "README.md")
  | Some Workspace, None => Err readme_undefined_msg
  | Some Workspace, Some defined =>
      match string_or_default defined "README.md" with
      | Some ws_readme => let? p := join_relative_path env root_path ws_readme in Ok (Some p)
      | None => Ok None
      end
  end.
End PackageFiles.

(** The [license_file] of [DefinedTomlPackage::from_toml_project];
    [ws_license_file] is [ws.and_then(|ws| ws.license_file.as_ref())]. *)
Definition resolve_license_file (env : Env) (license_file : option (MaybeWorkspace string))
    (ws_license_file : option string) (root_path : option string)
    : CargoResult (option string) :=
  match license_file, ws_license_file with
  | None, _ => Ok None
  | Some (Defined defined), _ => Ok (Some defined)
  | Some Workspace, None => Err license_file_undefined_msg
  | Some Workspace, Some ws_license_file =>
      let? p := join_relative_path env root_path ws_license_file in Ok (Some p)
  end.

(** ** [unique_build_targets] (lines 2177-2188) *)

(** [TargetSourcePath] of [core::manifest]. *)
Inductive TargetSourcePath : Type :=
| SourcePath (path : string)
| Metabuild.

Section UniqueBuildTargets.
(** [Target::src_path] *)
Variable src_path : Target -> TargetSourcePath.

(** The loop, with the [HashSet] [seen] as the list of paths inserted so far. *)
Fixpoint unique_build_targets_from (env : Env) (seen : list string) (targets : list Target)
    (package_root : string) : result unit string :=
  match targets with
  | [] => Ok tt
  | target :: rest =>
      match src_path target with
      | SourcePath path =>
          let full := join_path env package_root path in
          if existsb (String.eqb full) seen then Err full
          else unique_build_targets_from env (full :: seen) rest package_root
      | Metabuild => unique_build_targets_from env seen rest package_root
      end
  end.

Definition unique_build_targets (env : Env) (targets : list Target) (package_root : string)
    : result unit string :=
  unique_build_targets_from env [] targets package_root.

(** The full paths of the targets with a source path, in order. *)
Fixpoint target_paths (env : Env) (targets : list Target) (package_root : string) : list string :=
  match targets with
  | [] => []
  | target :: rest =>
      match src_path target with
      | SourcePath path => join_path env package_root path :: target_paths env rest package_root
      | Metabuild => target_paths env rest package_root
      end
  end.
End UniqueBuildTargets.

(** ** [TomlTarget] (lines 2498-2522, 2619-2647) *)

Module TomlTarget.
Record t : Type := mk {
  name : option string;
  crate_type : option (list string);
  crate_type2 : option (list string);
  path : option string;
  test : option bool;
  doctest : option bool;
  bench : option bool;
  doc : option bool;
  plugin : option bool;
  proc_macro_raw : option bool;
  proc_macro_raw2 : option bool;
  harness : option bool;
  required_features : option (list string);
  edition : option string
}.

(** [TomlTarget::crate_types] *)
Definition crate_types (t : t) : option (list string) :=
  or_else (crate_type t) (crate_type2 t).

(** [TomlTarget::proc_macro] *)
Definition proc_macro (t : t) : option bool :=
  match or_else (proc_macro_raw t) (proc_macro_raw2 t) with
  | Some b => Some b
  | None =>
      match crate_types t with
      | Some types =>
          if existsb (String.eqb "proc-macro") types then Some true else None
      | None => None
      end
  end.
End TomlTarget.

(** ** Serde visitors of [TomlOptLevel] and [U32OrBool] (lines 576-675) *)

(** The TOML value a [deserialize_any] hands to a visitor. *)
Inductive TomlValue : Type :=
| Integer (n : Z)
| Boolean (b : bool)
| Str (s : string)
| Other (unexpected : string).

(** [i64::to_string] *)
Definition i64_to_string (n : Z) : string := NilEmpty.string_of_int (Z.to_int n).

(** serde's [Unexpected] rendering of a value. *)
Definition unexpected (v : TomlValue) : string :=
  match v with
  | Integer n => "integer `" ++ i64_to_string n ++ "`"
  | Boolean b => "boolean `" ++ (if b then "true" else "false") ++ "`"
  | Str s => "string " ++ dq ++ s ++ dq
  | Other u => u
  end.

(** [de::Error::invalid_type(unexpected, &visitor)] *)
Definition invalid_type_msg (v : TomlValue) (expecting : string) : string :=
  "invalid type: " ++ unexpected v ++ ", expected " ++ expecting.

Module TomlOptLevel.
(** [str::parse::<u32>]: an optional [+], then at least one decimal digit,
    the value below [2^32]. *)
Definition parse_u32 (s : string) : option Z :=
  match s with
  | EmptyString => None
  | String c rest =>
      let digits := if Ascii.eqb c "+"%char then rest else s in
      match digits with
      | EmptyString => None
      | _ =>
          match NilEmpty.uint_of_string digits with
          | Some d => let n := Z.of_uint d in if Z.ltb n (2 ^ 32) then Some n else None
          | None => None
          end
      end
  end.

(** [impl Deserialize for TomlOptLevel]: [visit_i64] and [visit_str]. *)
Definition deserialize (v : TomlValue) : result string string :=
  match v with
  | Integer value => Ok (i64_to_string value)
  | Str value =>
      if String.eqb value "s" || String.eqb value "z" then Ok value
      else Err ("must be an integer, `z`, or `s`, but found the string: " ++ dq ++ value ++ dq)
  | _ => Err (invalid_type_msg v "an optimization level")
  end.

(** [impl Serialize for TomlOptLevel] *)
Definition serialize (level : string) : TomlValue :=
  match parse_u32 level with
  | Some n => Integer n
  | None => Str level
  end.
End TomlOptLevel.

Module U32OrBool.
Inductive t : Type :=
| U32 (n : Z)
| Bool (b : bool).

(** [u as u32] *)
Definition as_u32 (u : Z) : Z := Z.modulo u (2 ^ 32).

(** [impl Deserialize for U32OrBool]: [visit_bool] and [visit_i64]. *)
Definition deserialize (v : TomlValue) : result t string :=
  match v with
  | Boolean b => Ok (Bool b)
  | Integer u => Ok (U32 (as_u32 u))
  | _ => Err (invalid_type_msg v "a boolean or an integer")
  end.

(** The derived untagged [Serialize]. *)
Definition serialize (x : t) : TomlValue :=
  match x with
  | U32 n => Integer n
  | Bool b => Boolean b
  end.
End U32OrBool.

(** ** Predicates used in the statements *)


(** [m] relates every context it starts from to the one it ends in by [R]. *)
Definition preserves (R : Context.t -> Context.t -> Prop) {A : Type} (m : M A) : Prop :=
  forall cx a cx', m cx = Ok (a, cx') -> R cx cx'.

(** Materialising one declaration keeps the collected list and the platform. *)
Definition same_frame (cx cx' : Context.t) : Prop :=
  Context.deps cx' = Context.deps cx /\ Context.platform cx' = Context.platform cx.

(** The collected list only grows. *)
Definition deps_grow (cx cx' : Context.t) : Prop :=
  exists l, Context.deps cx' = (Context.deps cx ++ l)%list.

(** A profile that sets a key an override may not carry. *)
Definition restricted_override (o : TomlProfile.t) : bool :=
  is_some (TomlProfile.package o) || is_some (TomlProfile.build_override o)
  || is_some (TomlProfile.panic o) || is_some (TomlProfile.lto o) || is_some (TomlProfile.rpath o).

(** A dependency with none of the keys [prepare_for_publish] removes. *)
Definition publish_ready (dep : DefinedTomlDependency.t) : bool :=
  match dep with
  | DefinedTomlDependency.Simple _ => true
  | DefinedTomlDependency.Detailed d =>
      negb (is_some (TomlDependencyDetails.registry d))
      && negb (is_some (TomlDependencyDetails.path d))
      && negb (is_some (TomlDependencyDetails.git d))
      && negb (is_some (TomlDependencyDetails.branch d))
      && negb (is_some (TomlDependencyDetails.tag d))
      && negb (is_some (TomlDependencyDetails.rev d))
  end.

(** Every entry of a dependency table is [publish_ready]. *)
Definition table_publish_ready (table : option DepMap) : bool :=
  match table with
  | Some l => forallb (fun kv => publish_ready (snd kv)) l
  | None => true
  end.

(** Every table of a [target] entry is [publish_ready]. *)
Definition platform_publish_ready (p : DefinedTomlPlatform.t) : bool :=
  table_publish_ready (DefinedTomlPlatform.dependencies p)
  && table_publish_ready (DefinedTomlPlatform.build_dependencies p)
  && table_publish_ready (DefinedTomlPlatform.build_dependencies2 p)
  && table_publish_ready (DefinedTomlPlatform.dev_dependencies p)
  && table_publish_ready (DefinedTomlPlatform.dev_dependencies2 p).

(** Every dependency table of a manifest, top level and per target, is
    [publish_ready]. *)
Definition manifest_publish_ready (me : DefinedTomlManifest.t) : bool :=
  table_publish_ready (DefinedTomlManifest.dependencies me)
  && table_publish_ready (DefinedTomlManifest.dev_dependencies me)
  && table_publish_ready (DefinedTomlManifest.build_dependencies me)
  && match DefinedTomlManifest.target me with
     | Some ts => forallb (fun kv => platform_publish_ready (snd kv)) ts
     | None => true
     end.

(** A TOML dependency table with no [{ workspace = true }] entry. *)
Definition no_workspace_entries (table : option TomlDepMap) : bool :=
  match table with
  | Some l => forallb (fun kv => match snd kv with
                                 | TomlDependency.Workspace _ => false
                                 | _ => true
                                 end) l
  | None => true
  end.

(** The values of profile [name] that [TomlProfile::validate] checks. *)
Definition profile_values_ok (env : Env) (name : string) (p : TomlProfile.t) : Prop :=
  (TomlProfile.panic p = None \/ TomlProfile.panic p = Some "unwind"
   \/ TomlProfile.panic p = Some "abort")
  /\ TomlProfile.validate_name env name "profile name" = Ok tt
  /\ (forall dn, TomlProfile.dir_name p = Some dn -> TomlProfile.validate_name env dn "dir-name" = Ok tt)
  /\ (forall i, TomlProfile.inherits p = Some i -> TomlProfile.validate_name env i "inherits" = Ok tt)
  /\ (forall bo, TomlProfile.build_override p = Some bo ->
        TomlProfile.validate_override bo "build-override" = Ok tt)
  /\ (forall pk, TomlProfile.package p = Some pk ->
        forall s o, In (s, o) pk -> TomlProfile.validate_override o "package" = Ok tt).

(** ** Sample inputs of the publication, conversion and target functions *)

(** [env0] with no unstable feature enabled and no alternative registry
    configured. *)
Definition env_no_features : Env :=
  mkEnv (fun feature => Err ("feature `" ++ feature ++ "` is required"))
        (into_url env0) (url_fragment env0)
        (fun name => Err ("registry index was not found in any configuration: `" ++ name ++ "`"))
        (crates_io env0) (join_path env0) (normalize_path env0) (join_relative_path env0)
        (parse_version_req env0) (validate_package_name env0) (parse_platform env0)
        (check_cfg_attributes env0) (path_parent env0) (strip_prefix_ok env0) (file_name env0)
        (source_id_new env0) (char_is_alphanumeric env0).

(** [opt-level = 3] *)
Definition opt_level_3 : TomlProfile.t :=
  TomlProfile.mk (Some "3") None None None None None None None None None None None None None.

(** [debug = 2] *)
Definition debug_2 : TomlProfile.t :=
  TomlProfile.mk None None None (Some "2") None None None None None None None None None None.

(** [{ version = "1.0", registry = "alt" }] *)
Definition alt_registry_dep : TomlDependencyDetails.t :=
  TomlDependencyDetails.mk (Some "1.0") (Some "alt") None None None None None None
    None None None None None None.

(** [{ workspace = true }] *)
Definition inherited_foo : TomlDependency.t :=
  TomlDependency.Workspace (WorkspaceDetails.mk None None).

(** A virtual manifest: a [workspace] table and no [package]. *)
Definition manifest_virtual : DefinedTomlManifest.t :=
  DefinedTomlManifest.mk None None None None None None (Some TomlWorkspace.empty).

(** A manifest with a path dependency, a dev-dependency without a version, and
    a [cfg(unix)] table with a registry dependency, a git build-dependency
    under the [build_dependencies] alias and a dev-dependency under the
    [dev_dependencies] alias; its package names its workspace root and a
    [license-file]. *)
Definition manifest_for_publish : DefinedTomlManifest.t :=
  DefinedTomlManifest.mk None (Some (DefinedTomlPackage.mk "member" (Some "..") (Some "LICENSE") None))
    (Some [("foo", DefinedTomlDependency.Detailed
                     (TomlDependencyDetails.mk (Some "1.0") None None (Some "../foo") None None
                        None None None None None None None None));
           ("bar", DefinedTomlDependency.Simple "2")])
    (Some [("baz", DefinedTomlDependency.Detailed
                     (TomlDependencyDetails.mk None None None (Some "../baz") None None
                        None None None None None None None None));
           ("qux", DefinedTomlDependency.Simple "0.1")])
    None
    (Some [("cfg(unix)",
            DefinedTomlPlatform.mk
              (Some [("libc", DefinedTomlDependency.Detailed alt_registry_dep)])
              None
              (Some [("cc", DefinedTomlDependency.Detailed
                              (TomlDependencyDetails.mk (Some "1") None None None
                                 (Some "https://example.com/cc") (Some "main") None None
                                 None None None None None None))])
              None
              (Some [("tst", DefinedTomlDependency.Simple "1")]))])
    None.

(** A [Target::src_path]: the build script at [build.rs], every other target
    at [src/main.rs]. *)
Definition target_src_path (t : Target) : TargetSourcePath :=
  match target_kind t with
  | CustomBuild => SourcePath "build.rs"
  | _ => SourcePath "src/main.rs"
  end.

(** ** Evaluations *)

Example scenario_c_branch :
  match to_dependency env0 (DefinedTomlDependency.Detailed scenario_c) "foo" None cx0 with
  | Ok (dep, cx) => Dependency.source_id dep = for_git "https://example.com/repo" (Branch "main")
                    /\ Context.warnings cx = [ambiguous_reference_msg "foo"]
  | Err _ => False
  end.
Proof. vm_compute. split; reflexivity. Qed.

Example two_sources_rejected :
  into_real_manifest_deps env0 None manifest_two_sources "member 0.1.0"
    (for_registry "https://github.com/rust-lang/crates.io-index") [] [] "/ws/member"
  = Err (different_sources_msg "bar").
Proof. vm_compute. reflexivity. Qed.

Example scenario_d_rejected :
  TomlProfile.validate env0 scenario_d "release" [] = Err (TomlProfile.forbidden_key_msg "panic" "package").
Proof. vm_compute. reflexivity. Qed.

(** * Theorems *)

(** ** Workspace inheritance *)

Lemma names_ws_unreadable (label : string) : names (ws_unreadable_msg label) label.
Proof. exists "error reading ", ": could not read workspace root". reflexivity. Qed.

Lemma names_ws_undefined (label : string) : names (ws_undefined_msg label) label.
Proof.
  exists "error reading ", (": workspace root does not define [workspace." ++ label ++ "]").
  reflexivity.
Qed.

(** C3: resolving the marker [MaybeWorkspace::Workspace] fails, with an
    error naming the field, both when no workspace table exists and when the
    workspace table does not define the field. *)
Theorem ws_default_marker_fails {T : Type} (f : TomlWorkspace.t -> option T) (label : string)
    (ws : TomlWorkspace.t) (Hf : f ws = None) :
  ws_default (Some Workspace) None f label = Err (ws_unreadable_msg label)
  /\ names (ws_unreadable_msg label) label
  /\ ws_default (Some Workspace) (Some ws) f label = Err (ws_undefined_msg label)
  /\ names (ws_undefined_msg label) label.
Proof.
  repeat split; try apply names_ws_unreadable; try apply names_ws_undefined.
  simpl. rewrite Hf. reflexivity.
Qed.

Lemma ws_default_marker_fails_witness :
  TomlWorkspace.description TomlWorkspace.empty = None
  /\ ws_default (Some Workspace) None TomlWorkspace.description "description"
     = Err (ws_unreadable_msg "description")
  /\ names (ws_unreadable_msg "description") "description"
  /\ ws_default (Some Workspace) (Some TomlWorkspace.empty) TomlWorkspace.description "description"
     = Err (ws_undefined_msg "description")
  /\ names (ws_undefined_msg "description") "description".
Proof.
  split; [reflexivity |].
  apply (ws_default_marker_fails TomlWorkspace.description "description" TomlWorkspace.empty).
  reflexivity.
Defined.

(** C4: [MaybeWorkspace::Defined(x)] resolves to [Ok(Some(x))] for every
    workspace argument and every field accessor. *)
Theorem ws_default_defined {T : Type} (x : T) (workspace : option TomlWorkspace.t)
    (f : TomlWorkspace.t -> option T) (label : string) :
  ws_default (Some (Defined x)) workspace f label = Ok (Some x).
Proof. destruct workspace; reflexivity. Qed.

(** ** Workspace dependencies *)

(** C2 (counterexample): with a detailed workspace entry listing ["a"] and a
    member listing ["b"], the merged list is ["b"; "a"]: the member's list
    comes first, not the workspace's. *)
Lemma from_workspace_dependency_member_features_first :
  exists r,
    from_workspace_dependency env0 (WorkspaceDetails.mk (Some ["b"]) None) ws_entry_with_a None
    = Ok r
    /\ DefinedTomlDependency.features r = Some ["b"; "a"]
    /\ DefinedTomlDependency.features r <> Some (push_missing ["a"] ["b"]).
Proof.
  eexists. split; [reflexivity |]. split; [reflexivity |].
  vm_compute. congruence.
Qed.

(** C2 (amended): a [Simple] workspace entry [v] becomes a [Detailed]
    dependency with version [v], the member's [optional] when it gives one
    ([false] otherwise) and the member's features; when a detailed workspace
    entry and the member both list features, the result is the member's
    list followed by the workspace features it does not already contain. *)
Theorem from_workspace_dependency_merge (env : Env) (details : WorkspaceDetails.t)
    (root_path : option string) :
  (forall v : string,
     exists d,
       from_workspace_dependency env details (DefinedTomlDependency.Simple v) root_path
       = Ok (DefinedTomlDependency.Detailed d)
       /\ TomlDependencyDetails.version d = Some v
       /\ TomlDependencyDetails.optional d
          = Some (match WorkspaceDetails.optional details with Some o => o | None => false end)
       /\ TomlDependencyDetails.features d = WorkspaceDetails.features details)
  /\ (forall (wd : TomlDependencyDetails.t) (member_features ws_features : list string) r,
        WorkspaceDetails.features details = Some member_features ->
        TomlDependencyDetails.features wd = Some ws_features ->
        from_workspace_dependency env details (DefinedTomlDependency.Detailed wd) root_path = Ok r ->
        DefinedTomlDependency.features r = Some (push_missing member_features ws_features)).
Proof.
  split.
  - intros v. eexists. split; [reflexivity |].
    simpl. destruct (WorkspaceDetails.features details), (WorkspaceDetails.optional details);
      repeat split; reflexivity.
  - intros wd mf wf r Hm Hw Hr. simpl in Hr.
    destruct (TomlDependencyDetails.path wd) as [p |].
    + destruct (join_relative_path env root_path p); simpl in Hr; [| discriminate].
      injection Hr as <-. simpl. rewrite Hm, Hw. reflexivity.
    + simpl in Hr. injection Hr as <-. simpl. rewrite Hm, Hw. reflexivity.
Qed.

Lemma from_workspace_dependency_merge_witness :
  (exists d,
     from_workspace_dependency env0 (WorkspaceDetails.mk None (Some true))
       (DefinedTomlDependency.Simple "2.0") None
     = Ok (DefinedTomlDependency.Detailed d)
     /\ TomlDependencyDetails.version d = Some "2.0"
     /\ TomlDependencyDetails.optional d = Some true
     /\ TomlDependencyDetails.features d = None)
  /\ WorkspaceDetails.features (WorkspaceDetails.mk (Some ["b"]) None) = Some ["b"]
  /\ DefinedTomlDependency.features ws_entry_with_a = Some ["a"]
  /\ from_workspace_dependency env0 (WorkspaceDetails.mk (Some ["b"]) None) ws_entry_with_a None
     = Ok (DefinedTomlDependency.Detailed
             (TomlDependencyDetails.mk (Some "2.0") None None None None None None None
                (Some ["b"; "a"]) None None None None None))
  /\ DefinedTomlDependency.features
       (DefinedTomlDependency.Detailed
          (TomlDependencyDetails.mk (Some "2.0") None None None None None None None
             (Some ["b"; "a"]) None None None None None))
     = Some (push_missing ["b"] ["a"]).
Proof.
  destruct (from_workspace_dependency_merge env0 (WorkspaceDetails.mk None (Some true)) None)
    as [Hs _].
  destruct (from_workspace_dependency_merge env0 (WorkspaceDetails.mk (Some ["b"]) None) None)
    as [_ Hd].
  split; [apply (Hs "2.0") |].
  split; [reflexivity |]. split; [reflexivity |]. split; [reflexivity |].
  apply (Hd (TomlDependencyDetails.mk (Some "2.0") None None None None None None None
               (Some ["a"]) None None None None None) ["b"] ["a"]); reflexivity.
Defined.

(** ** Dependency materialisation *)

Lemma mbind_ok {A B : Type} (m : M A) (k : A -> M B) (cx cx1 : Context.t) (a : A) :
  m cx = Ok (a, cx1) -> mbind m k cx = k a cx1.
Proof. intros H. unfold mbind. rewrite H. reflexivity. Qed.

Lemma when_warn_ok (b : bool) (msg : string) (cx : Context.t) :
  exists cx', when b (warn msg) cx = Ok (tt, cx').
Proof. destruct b; eexists; reflexivity. Qed.

Lemma warn_git_only_keys_ok (name : string) (keys : list (option string * string))
    (cx : Context.t) :
  exists cx', warn_git_only_keys name keys cx = Ok (tt, cx').
Proof.
  revert cx. induction keys as [| [key key_name] rest IH]; intros cx.
  - eexists. reflexivity.
  - simpl. destruct (when_warn_ok (is_some key) (ignored_key_msg name key_name) cx) as [cx1 H1].
    rewrite (mbind_ok _ _ _ _ _ H1). apply IH.
Qed.

(** The warnings before the source derivation never fail. *)
Lemma dependency_warnings_ok (d : TomlDependencyDetails.t) (name : string) (cx : Context.t) :
  exists cx', dependency_warnings d name cx = Ok (tt, cx').
Proof.
  unfold dependency_warnings.
  destruct (when_warn_ok (negb (is_some (TomlDependencyDetails.version d))
                          && negb (is_some (TomlDependencyDetails.path d))
                          && negb (is_some (TomlDependencyDetails.git d)))
                         (no_source_msg name) cx) as [cx1 H1].
  rewrite (mbind_ok _ _ _ _ _ H1).
  assert (H2 : exists cx2,
             match TomlDependencyDetails.version d with
             | Some version => when (contains_char "+"%char version)
                                    (warn (semver_metadata_msg name version))
             | None => mret tt
             end cx1 = Ok (tt, cx2)).
  { destruct (TomlDependencyDetails.version d) as [v |];
      [apply when_warn_ok | eexists; reflexivity]. }
  destruct H2 as [cx2 H2]. rewrite (mbind_ok _ _ _ _ _ H2).
  destruct (negb (is_some (TomlDependencyDetails.git d))); unfold when;
    [apply warn_git_only_keys_ok | eexists; reflexivity].
Qed.

(** [build_dependency] leaves the context as it is, keeps the source, sets
    the requested kind ([Normal] by default) and keeps the in-document name. *)
Lemma build_dependency_source (env : Env) (d : TomlDependencyDetails.t) (name : string)
    (kind : option DepKind) (sid : SourceId) (cx cx' : Context.t) (dep : Dependency.t) :
  build_dependency env d name kind sid cx = Ok (dep, cx') ->
  cx' = cx /\ Dependency.source_id dep = sid
  /\ Dependency.kind dep = (match kind with Some k => k | None => Normal end)
  /\ Dependency.name_in_toml dep = name
  /\ Dependency.platform dep = Context.platform cx.
Proof.
  unfold build_dependency, Dependency.parse, mbind, lift, get_cx, mret, bail, sid_new.
  destruct (TomlDependencyDetails.package d);
  destruct (parse_version_req env (TomlDependencyDetails.version d)); try discriminate;
  destruct (TomlDependencyDetails.registry d) as [r |];
  try destruct (alt_registry env r); try discriminate;
  destruct (TomlDependencyDetails.registry_index d) as [ri |];
  try destruct (into_url env ri) as [u |]; try discriminate;
  try destruct (source_id_new env (for_registry u)); try discriminate;
  try destruct (require env "rename-dependency"); try discriminate;
  destruct (TomlDependencyDetails.public d);
  try destruct (require env "public-dependency"); try discriminate;
  destruct kind as [[] |]; simpl; intros H; try discriminate;
  injection H as <- <-; repeat split; reflexivity.
Qed.

(** [to_dependency] on a detailed declaration: the warnings, then the
    source derivation, then the rest. *)
Lemma to_dependency_detailed_source (env : Env) (d : TomlDependencyDetails.t) (name : string)
    (kind : option DepKind) (cx : Context.t) :
  exists cx1,
    to_dependency env (DefinedTomlDependency.Detailed d) name kind cx
    = mbind (new_source_id env d name) (build_dependency env d name kind) cx1.
Proof.
  destruct (dependency_warnings_ok d name cx) as [cx1 H1].
  exists cx1. simpl. unfold details_to_dependency. unfold mbind at 1. rewrite H1. reflexivity.
Qed.

Lemma in_push_warning (msg w : string) (cx : Context.t) :
  In msg (Context.warnings cx) -> In msg (Context.warnings (Context.push_warning w cx)).
Proof. intros H. simpl. apply in_or_app. left. exact H. Qed.

Lemma in_pushed_warning (msg : string) (cx : Context.t) :
  In msg (Context.warnings (Context.push_warning msg cx)).
Proof. simpl. apply in_or_app. right. left. reflexivity. Qed.

(** C1 (counterexample): [{ git = "https://example.com/repo", tag = "v1",
    branch = "main" }] materialises with the ambiguity warning, but its
    reference is the branch [main], not the tag [v1]. *)
Lemma scenario_c_reference_is_branch :
  exists dep cx,
    to_dependency env0 (DefinedTomlDependency.Detailed scenario_c) "foo" None cx0 = Ok (dep, cx)
    /\ In (ambiguous_reference_msg "foo") (Context.warnings cx)
    /\ Dependency.source_id dep = for_git "https://example.com/repo" (Branch "main")
    /\ Dependency.source_id dep <> for_git "https://example.com/repo" (Tag "v1").
Proof.
  do 2 eexists. split; [vm_compute; reflexivity |].
  split; [vm_compute; left; reflexivity |].
  split; [reflexivity | discriminate].
Qed.

(** C1 (amended): a declaration with a git location, both [tag] and
    [branch], and neither [registry] nor [registry-index] derives its source
    without failing once the URL parses and [SourceId::for_git] accepts it,
    pushes the ambiguity warning, and takes the branch as its reference; a
    successful [to_dependency] carries that source and that warning. *)
Theorem git_tag_and_branch_branch_wins (env : Env) (d : TomlDependencyDetails.t)
    (name g t b loc : string) (cx : Context.t)
    (Hgit : TomlDependencyDetails.git d = Some g)
    (Htag : TomlDependencyDetails.tag d = Some t)
    (Hbranch : TomlDependencyDetails.branch d = Some b)
    (Hreg : TomlDependencyDetails.registry d = None)
    (Hidx : TomlDependencyDetails.registry_index d = None)
    (Hurl : into_url env g = Ok loc)
    (Hnew : source_id_new env (for_git loc (Branch b)) = Ok tt) :
  (exists cx', new_source_id env d name cx = Ok (for_git loc (Branch b), cx')
               /\ In (ambiguous_reference_msg name) (Context.warnings cx'))
  /\ (forall kind dep cx'',
        to_dependency env (DefinedTomlDependency.Detailed d) name kind cx = Ok (dep, cx'') ->
        Dependency.source_id dep = for_git loc (Branch b)
        /\ In (ambiguous_reference_msg name) (Context.warnings cx'')).
Proof.
  assert (Hsrc : forall cx,
             exists cx', new_source_id env d name cx = Ok (for_git loc (Branch b), cx')
                         /\ In (ambiguous_reference_msg name) (Context.warnings cx')).
  { intros c. unfold new_source_id.
    rewrite Hgit, Hreg, Hidx. unfold git_reference. rewrite Hbranch, Htag.
    destruct (when_warn_ok (is_some (TomlDependencyDetails.path d)) (ambiguous_git_path_msg name) c)
      as [c1 H1].
    destruct (TomlDependencyDetails.path d) as [p |];
      rewrite (mbind_ok _ _ _ _ _ H1);
      destruct (TomlDependencyDetails.rev d); simpl;
      unfold mbind, lift; rewrite Hurl;
      destruct (url_fragment env loc) as [fr |]; simpl;
      unfold sid_new; rewrite Hnew; simpl;
      eexists; (split; [reflexivity |]);
      repeat first [apply in_pushed_warning | apply in_push_warning]. }
  split; [apply Hsrc |].
  intros kind dep cx'' H.
  destruct (to_dependency_detailed_source env d name kind cx) as [cx1 Hcx1].
  rewrite Hcx1 in H.
  destruct (Hsrc cx1) as [cx2 [H2 Hin]].
  rewrite (mbind_ok _ _ _ _ _ H2) in H.
  destruct (build_dependency_source _ _ _ _ _ _ _ _ H) as (-> & Hs & _).
  split; assumption.
Qed.

Lemma git_tag_and_branch_branch_wins_witness :
  (exists cx', new_source_id env0 scenario_c "foo" cx0
               = Ok (for_git "https://example.com/repo" (Branch "main"), cx')
               /\ In (ambiguous_reference_msg "foo") (Context.warnings cx'))
  /\ (forall kind dep cx'',
        to_dependency env0 (DefinedTomlDependency.Detailed scenario_c) "foo" kind cx0
        = Ok (dep, cx'') ->
        Dependency.source_id dep = for_git "https://example.com/repo" (Branch "main")
        /\ In (ambiguous_reference_msg "foo") (Context.warnings cx'')).
Proof.
  apply (git_tag_and_branch_branch_wins env0 scenario_c "foo" "https://example.com/repo" "v1"
           "main" "https://example.com/repo" cx0); reflexivity.
Defined.

(** C5: a declaration with a git location and a registry name or a
    registry URL, or with both a registry name and a registry URL, fails to
    materialise with the corresponding ambiguity error. *)
Theorem to_dependency_ambiguous_source_fails (env : Env) (d : TomlDependencyDetails.t)
    (name : string) (kind : option DepKind) (cx : Context.t)
    (Hamb : (is_some (TomlDependencyDetails.git d)
             && (is_some (TomlDependencyDetails.registry d)
                 || is_some (TomlDependencyDetails.registry_index d))
             || is_some (TomlDependencyDetails.registry d)
                && is_some (TomlDependencyDetails.registry_index d)) = true) :
  exists e,
    to_dependency env (DefinedTomlDependency.Detailed d) name kind cx = Err e
    /\ e = (if is_some (TomlDependencyDetails.git d)
            then ambiguous_git_registry_msg name
            else ambiguous_registry_index_msg name).
Proof.
  destruct (to_dependency_detailed_source env d name kind cx) as [cx1 ->].
  unfold mbind, new_source_id.
  destruct (TomlDependencyDetails.git d), (TomlDependencyDetails.path d),
    (TomlDependencyDetails.registry d), (TomlDependencyDetails.registry_index d);
    simpl in Hamb; try discriminate; eexists; split; reflexivity.
Qed.

Lemma to_dependency_ambiguous_source_fails_witness :
  (is_some (TomlDependencyDetails.git git_and_registry)
   && (is_some (TomlDependencyDetails.registry git_and_registry)
       || is_some (TomlDependencyDetails.registry_index git_and_registry))
   || is_some (TomlDependencyDetails.registry git_and_registry)
      && is_some (TomlDependencyDetails.registry_index git_and_registry)) = true
  /\ exists e,
       to_dependency env0 (DefinedTomlDependency.Detailed git_and_registry) "foo" None cx0 = Err e
       /\ e = (if is_some (TomlDependencyDetails.git git_and_registry)
               then ambiguous_git_registry_msg "foo"
               else ambiguous_registry_index_msg "foo").
Proof.
  split; [reflexivity |].
  apply (to_dependency_ambiguous_source_fails env0 git_and_registry "foo" None cx0).
  reflexivity.
Defined.

(** ** One source per dependency name *)







(** ** Workspace dependencies are materialised *)

Section Preserves.
Variable R : Context.t -> Context.t -> Prop.
Hypothesis R_refl : forall cx, R cx cx.
Hypothesis R_trans : forall a b c, R a b -> R b c -> R a c.

Lemma preserves_mret {A : Type} (a : A) : preserves R (mret a).
Proof. intros cx a' cx' H. injection H as _ <-. apply R_refl. Qed.

Lemma preserves_lift {A : Type} (r : CargoResult A) : preserves R (lift r).
Proof. intros cx a cx' H. unfold lift in H. destruct r; [injection H as _ <-; apply R_refl | discriminate]. Qed.

Lemma preserves_bail {A : Type} (msg : string) : preserves R (@bail A msg).
Proof. intros cx a cx' H. discriminate H. Qed.

Lemma preserves_get_cx : preserves R get_cx.
Proof. intros cx a cx' H. injection H as _ <-. apply R_refl. Qed.

Lemma preserves_mbind {A B : Type} (m : M A) (k : A -> M B) :
  preserves R m -> (forall a, preserves R (k a)) -> preserves R (mbind m k).
Proof.
  intros Hm Hk cx b cx' H. unfold mbind in H.
  destruct (m cx) as [[a cx1] |] eqn:E; [| discriminate].
  apply R_trans with cx1; [apply (Hm _ _ _ E) | apply (Hk a _ _ _ H)].
Qed.

Lemma preserves_when (b : bool) (m : M unit) : preserves R m -> preserves R (when b m).
Proof. intros Hm. destruct b; [exact Hm | apply preserves_mret]. Qed.
End Preserves.

Lemma same_frame_refl (cx : Context.t) : same_frame cx cx.
Proof. split; reflexivity. Qed.

Lemma same_frame_trans (a b c : Context.t) : same_frame a b -> same_frame b c -> same_frame a c.
Proof. intros [H1 H2] [H3 H4]. split; congruence. Qed.

Create HintDb frame.
#[local] Hint Resolve same_frame_refl same_frame_trans : frame.
#[local] Hint Resolve preserves_mret preserves_lift preserves_bail preserves_get_cx
  preserves_when : frame.

Lemma preserves_warn (msg : string) : preserves same_frame (warn msg).
Proof. intros cx a cx' H. injection H as _ <-. split; reflexivity. Qed.
#[local] Hint Resolve preserves_warn : frame.

Ltac frame_step :=
  repeat (apply preserves_mbind; [exact same_frame_trans | | intro ]);
  auto with frame.

Lemma warn_git_only_keys_frame (name : string) (keys : list (option string * string)) :
  preserves same_frame (warn_git_only_keys name keys).
Proof.
  induction keys as [| [key key_name] rest IH]; simpl; [auto with frame |].
  frame_step.
Qed.
#[local] Hint Resolve warn_git_only_keys_frame : frame.

Lemma dependency_warnings_frame (d : TomlDependencyDetails.t) (name : string) :
  preserves same_frame (dependency_warnings d name).
Proof.
  unfold dependency_warnings. frame_step.
  destruct (TomlDependencyDetails.version d); auto with frame.
Qed.

Lemma new_source_id_frame (env : Env) (d : TomlDependencyDetails.t) (name : string) :
  preserves same_frame (new_source_id env d name).
Proof.
  unfold new_source_id.
  destruct (TomlDependencyDetails.git d), (TomlDependencyDetails.path d),
    (TomlDependencyDetails.registry d), (TomlDependencyDetails.registry_index d);
    frame_step;
    try (destruct (url_fragment env _); auto with frame);
    intros cx a cx' H; destruct (is_path (Context.source_id cx));
    try match type of H with
        | context [sid_new env ?s] => destruct (sid_new env s); [| discriminate H]
        end;
    injection H as _ <-; split; reflexivity.
Qed.

Lemma to_dependency_frame (env : Env) (dep : DefinedTomlDependency.t) (name : string)
    (kind : option DepKind) :
  preserves same_frame (to_dependency env dep name kind).
Proof.
  assert (Hb : forall d sid, preserves same_frame (build_dependency env d name kind sid)).
  { intros d sid cx a cx' H. destruct (build_dependency_source _ _ _ _ _ _ _ _ H) as (-> & _).
    apply same_frame_refl. }
  destruct dep as [v | d]; unfold to_dependency, details_to_dependency;
    (apply preserves_mbind; [exact same_frame_trans | apply dependency_warnings_frame | intro]);
    (apply preserves_mbind; [exact same_frame_trans | apply new_source_id_frame | intro]);
    apply Hb.
Qed.

Lemma deps_grow_refl (cx : Context.t) : deps_grow cx cx.
Proof. exists []. rewrite app_nil_r. reflexivity. Qed.

Lemma deps_grow_trans (a b c : Context.t) : deps_grow a b -> deps_grow b c -> deps_grow a c.
Proof.
  intros [l1 H1] [l2 H2]. exists (l1 ++ l2)%list. rewrite H2, H1. symmetry. apply app_assoc.
Qed.

Lemma preserves_weaken (R R' : Context.t -> Context.t -> Prop) {A : Type} (m : M A) :
  (forall a b, R a b -> R' a b) -> preserves R m -> preserves R' m.
Proof. intros HR Hm cx a cx' H. apply HR. apply (Hm _ _ _ H). Qed.

Lemma same_frame_deps_grow (a b : Context.t) : same_frame a b -> deps_grow a b.
Proof. intros [H _]. exists []. rewrite H, app_nil_r. reflexivity. Qed.

Lemma to_dependency_grow (env : Env) (dep : DefinedTomlDependency.t) (name : string)
    (kind : option DepKind) :
  preserves deps_grow (to_dependency env dep name kind).
Proof. apply (preserves_weaken same_frame); [apply same_frame_deps_grow | apply to_dependency_frame]. Qed.

Lemma push_dep_grow (d : Dependency.t) :
  preserves deps_grow (fun cx => Ok (tt, Context.push_dep d cx)).
Proof. intros cx a cx' H. injection H as _ <-. exists [d]. reflexivity. Qed.

Lemma process_dependency_entries_grow (env : Env) (l : DepMap) (kind : option DepKind) :
  preserves deps_grow (process_dependency_entries env l kind).
Proof.
  induction l as [| [n v] rest IH]; cbn [process_dependency_entries].
  - apply preserves_mret. apply deps_grow_refl.
  - apply preserves_mbind; [exact deps_grow_trans | apply to_dependency_grow | intro dep].
    apply preserves_mbind; [exact deps_grow_trans | apply preserves_lift, deps_grow_refl | intro].
    apply preserves_mbind; [exact deps_grow_trans | apply push_dep_grow | intro].
    exact IH.
Qed.

Lemma process_dependencies_grow (env : Env) (deps : option DepMap) (kind : option DepKind) :
  preserves deps_grow (process_dependencies env deps kind).
Proof.
  destruct deps as [l |]; [apply process_dependency_entries_grow |].
  apply preserves_mret. apply deps_grow_refl.
Qed.

Lemma fold_push_warning_deps (ws : list string) (cx : Context.t) :
  Context.deps (fold_left (fun c w => Context.push_warning w c) ws cx) = Context.deps cx.
Proof. revert cx. induction ws as [| w ws IH]; intros cx; [reflexivity |]. simpl. rewrite IH. reflexivity. Qed.

Lemma process_targets_grow (env : Env) (targets : list (string * DefinedTomlPlatform.t)) :
  preserves deps_grow (process_targets env targets).
Proof.
  induction targets as [| [name platform] rest IH]; cbn [process_targets].
  - apply preserves_mret. apply deps_grow_refl.
  - apply preserves_mbind; [exact deps_grow_trans | | intro].
    + unfold enter_platform.
      apply preserves_mbind; [exact deps_grow_trans | apply preserves_lift, deps_grow_refl | intro p].
      intros cx a cx' H. injection H as _ <-. exists []. rewrite app_nil_r.
      apply fold_push_warning_deps.
    + repeat (apply preserves_mbind; [exact deps_grow_trans | apply process_dependencies_grow | intro]).
      exact IH.
Qed.

(** Every entry of a processed table is materialised, from a context on the
    platform the processing started on, into the collected list. *)
Lemma process_dependency_entries_materialise (env : Env) (l : DepMap) (kind : option DepKind)
    (cx cx' : Context.t) (u : unit) :
  process_dependency_entries env l kind cx = Ok (u, cx') ->
  forall n d, In (n, d) l ->
  exists dep cx1 cx2,
    to_dependency env d n kind cx1 = Ok (dep, cx2)
    /\ Context.platform cx1 = Context.platform cx
    /\ In dep (Context.deps cx').
Proof.
  revert cx. induction l as [| [n0 v] rest IH]; intros cx H n d Hin; [destruct Hin |].
  cbn [process_dependency_entries] in H. unfold mbind at 1 in H.
  destruct (to_dependency env v n0 kind cx) as [[dep c1] |] eqn:E1; [| discriminate].
  unfold mbind at 1, lift in H.
  destruct (validate_package_name env (Dependency.name_in_toml dep) "dependency name");
    [| discriminate].
  unfold mbind at 1 in H.
  destruct (to_dependency_frame env v n0 kind _ _ _ E1) as [_ Hp1].
  destruct Hin as [Heq | Hin].
  - injection Heq as <- <-. exists dep, cx, c1. split; [exact E1 |]. split; [reflexivity |].
    destruct (process_dependency_entries_grow env rest kind _ _ _ H) as [l' Hl].
    rewrite Hl. apply in_or_app. left. simpl. apply in_or_app. right. left. reflexivity.
  - destruct (IH _ H n d Hin) as (dep' & cx1 & cx2 & E & Hp & Hd).
    exists dep', cx1, cx2. split; [exact E |]. split; [| exact Hd].
    rewrite Hp. simpl. exact Hp1.
Qed.

Lemma to_dependency_kind_name (env : Env) (dep : DefinedTomlDependency.t) (name : string)
    (kind : option DepKind) (cx cx' : Context.t) (d : Dependency.t) :
  to_dependency env dep name kind cx = Ok (d, cx') ->
  Dependency.kind d = (match kind with Some k => k | None => Normal end)
  /\ Dependency.name_in_toml d = name.
Proof.
  intros H.
  assert (Hd : exists dd, to_dependency env dep name kind = details_to_dependency env dd name kind)
    by (destruct dep; eexists; reflexivity).
  destruct Hd as [dd Hd]. rewrite Hd in H. unfold details_to_dependency, mbind in H.
  destruct (dependency_warnings dd name cx) as [[[] c1] |]; [| discriminate].
  destruct (new_source_id env dd name c1) as [[sid c2] |]; [| discriminate].
  destruct (build_dependency_source _ _ _ _ _ _ _ _ H) as (_ & _ & Hk & Hn & _).
  split; assumption.
Qed.

(** C9: when the workspace root found for the package defines
    [[workspace.dependencies]], every entry of that table is materialised
    into the package's dependency list as a [Normal] dependency under its
    own name, from a context with no platform, whatever the package's own
    tables declare. *)
Theorem into_real_manifest_includes_workspace_dependencies (env : Env) (w : TomlWorkspace.t)
    (me : DefinedTomlManifest.t) (pkgid : string) (source_id : SourceId)
    (nested_paths warnings : list string) (package_root : string)
    (deps : list Dependency.t) (cx : Context.t) (ws_deps : DepMap)
    (Hok : into_real_manifest_deps env (Some w) me pkgid source_id nested_paths warnings
             package_root = Ok (deps, cx))
    (Hws : TomlWorkspace.dependencies w = Some ws_deps) :
  forall n d, In (n, d) ws_deps ->
  exists dep cx1 cx2,
    to_dependency env d n None cx1 = Ok (dep, cx2)
    /\ Context.platform cx1 = None
    /\ In dep deps
    /\ Dependency.kind dep = Normal
    /\ Dependency.name_in_toml dep = n.
Proof.
  intros n d Hin.
  unfold into_real_manifest_deps in Hok.
  destruct (collect_dependencies env (Some w) me _) as [[u cx'] | e] eqn:Ec; [| discriminate].
  destruct (check_names_sources [] (Context.deps cx')) as [[] |]; [| discriminate].
  simpl in Hok. injection Hok as <- _.
  unfold collect_dependencies in Ec. rewrite Hws in Ec. unfold mbind at 1 in Ec.
  destruct (process_dependencies env (Some ws_deps) None _) as [[[] c1] |] eqn:E1;
    [| discriminate].
  assert (Hgrow : deps_grow c1 cx').
  { revert Ec. apply preserves_weaken with (R := deps_grow); [tauto |].
    repeat (apply preserves_mbind; [exact deps_grow_trans | apply process_dependencies_grow | intro]).
    apply process_targets_grow. }
  destruct (process_dependency_entries_materialise env ws_deps None _ _ _ E1 n d Hin)
    as (dep & cx1 & cx2 & E & Hp & Hd).
  destruct (to_dependency_kind_name _ _ _ _ _ _ _ E) as [Hk Hn].
  exists dep, cx1, cx2. split; [exact E |]. split; [exact Hp |].
  split; [| split; assumption].
  destruct Hgrow as [l Hl]. rewrite Hl. apply in_or_app. left. exact Hd.
Qed.

Lemma into_real_manifest_includes_workspace_dependencies_witness :
  match into_real_manifest_deps env0 (Some ws_with_serde) manifest_member "member 0.1.0"
          (for_registry "https://github.com/rust-lang/crates.io-index") [] [] "/ws/member" with
  | Ok (deps, cx) =>
      exists dep cx1 cx2,
        to_dependency env0 (DefinedTomlDependency.Simple "1.0") "serde" None cx1 = Ok (dep, cx2)
        /\ Context.platform cx1 = None
        /\ In dep deps
        /\ Dependency.kind dep = Normal
        /\ Dependency.name_in_toml dep = "serde"
  | Err _ => False
  end.
Proof.
  destruct (into_real_manifest_deps env0 (Some ws_with_serde) manifest_member "member 0.1.0"
              (for_registry "https://github.com/rust-lang/crates.io-index") [] [] "/ws/member")
    as [[deps cx] | e] eqn:E; [| vm_compute in E; discriminate E].
  apply (into_real_manifest_includes_workspace_dependencies env0 ws_with_serde manifest_member
           "member 0.1.0" (for_registry "https://github.com/rust-lang/crates.io-index") [] []
           "/ws/member" deps cx [("serde", DefinedTomlDependency.Simple "1.0")] E eq_refl).
  left. reflexivity.
Defined.

(** ** Profile overrides *)

Lemma bind_Err {A B : Type} (e : string) (k : A -> CargoResult B) : bind (Err e) k = Err e.
Proof. reflexivity. Qed.

Lemma bind_Ok {A B : Type} (a : A) (k : A -> CargoResult B) : bind (Ok a) k = k a.
Proof. reflexivity. Qed.

Lemma validate_override_restricted (o : TomlProfile.t) (which : string) :
  restricted_override o = true -> exists e, TomlProfile.validate_override o which = Err e.
Proof.
  unfold restricted_override, TomlProfile.validate_override.
  destruct (TomlProfile.package o), (TomlProfile.build_override o), (TomlProfile.panic o),
    (TomlProfile.lto o), (TomlProfile.rpath o); simpl; intros H; try discriminate;
    eexists; reflexivity.
Qed.

Lemma validate_package_overrides_restricted (pk : list (string * TomlProfile.t))
    (k : string) (o : TomlProfile.t) :
  In (k, o) pk -> restricted_override o = true ->
  exists e, TomlProfile.validate_package_overrides pk = Err e.
Proof.
  intros Hin Hr. induction pk as [| [k' o'] rest IH]; [destruct Hin |].
  simpl. destruct Hin as [Heq | Hin].
  - injection Heq as -> ->.
    destruct (validate_override_restricted o "package" Hr) as [e ->]. exists e. reflexivity.
  - destruct (TomlProfile.validate_override o' "package") as [[] | e].
    + rewrite bind_Ok. apply IH. exact Hin.
    + exists e. reflexivity.
Qed.

Lemma string_app_assoc (a b c : string) : (a ++ b) ++ c = a ++ (b ++ c).
Proof. induction a as [| ch a IH]; simpl; [reflexivity | rewrite IH; reflexivity]. Qed.

Lemma names_forbidden_key (key which : string) :
  names (TomlProfile.forbidden_key_msg key which) key
  /\ names (TomlProfile.forbidden_key_msg key which) which.
Proof.
  split.
  - exists "`", ("` may not be specified in a `" ++ which ++ "` profile"). reflexivity.
  - exists ("`" ++ key ++ "` may not be specified in a `"), "` profile".
    unfold TomlProfile.forbidden_key_msg. rewrite !string_app_assoc. reflexivity.
Qed.

(** C7: [TomlProfile::validate] fails whenever its build-override or one of
    its [package.*] overrides nests overrides or sets [panic], [lto] or
    [rpath]; for [[profile.release.package.foo]] with [panic = "abort"], once
    the [profile-overrides] gate passes, the error is the one naming [panic]
    and the [package] override. *)
Theorem validate_rejects_restricted_overrides (env : Env) (p : TomlProfile.t) (name : string)
    (warnings : list string) :
  ((exists o, TomlProfile.build_override p = Some o /\ restricted_override o = true)
   \/ (exists pk k o, TomlProfile.package p = Some pk /\ In (k, o) pk
                      /\ restricted_override o = true) ->
   exists e, TomlProfile.validate env p name warnings = Err e)
  /\ (require env "profile-overrides" = Ok tt ->
      TomlProfile.validate env scenario_d "release" warnings
      = Err (TomlProfile.forbidden_key_msg "panic" "package")
      /\ names (TomlProfile.forbidden_key_msg "panic" "package") "panic"
      /\ names (TomlProfile.forbidden_key_msg "panic" "package") "package").
Proof.
  split.
  - intros [(o & Ho & Hr) | (pk & k & o & Hp & Hin & Hr)]; unfold TomlProfile.validate.
    + rewrite Ho. destruct (require env "profile-overrides") as [[] | e];
        [| eexists; reflexivity].
      rewrite bind_Ok.
      destruct (validate_override_restricted o "build-override" Hr) as [e He].
      rewrite He, bind_Err. eexists; reflexivity.
    + rewrite Hp.
      destruct (validate_package_overrides_restricted pk k o Hin Hr) as [e He].
      destruct (TomlProfile.build_override p) as [o' |].
      * destruct (require env "profile-overrides") as [[] | e'];
          [| eexists; reflexivity].
        rewrite bind_Ok.
        destruct (TomlProfile.validate_override o' "build-override") as [[] | e'];
          [| eexists; reflexivity].
        rewrite !bind_Ok, He, bind_Err. eexists; reflexivity.
      * rewrite bind_Ok.
        destruct (require env "profile-overrides") as [[] | e'];
          [| eexists; reflexivity].
        rewrite !bind_Ok, He, bind_Err. eexists; reflexivity.
  - intros Hreq. split; [| apply names_forbidden_key].
    unfold TomlProfile.validate. simpl. rewrite Hreq. reflexivity.
Qed.

Lemma validate_rejects_restricted_overrides_witness :
  exists e, TomlProfile.validate env0 scenario_d "release" [] = Err e
  /\ e = TomlProfile.forbidden_key_msg "panic" "package".
Proof.
  destruct (validate_rejects_restricted_overrides env0 scenario_d "release" []) as [Hall Hd].
  destruct (Hd eq_refl) as [He _].
  destruct (Hall (or_intror (ex_intro _ _ (ex_intro _ "foo" (ex_intro _ _
              (conj eq_refl (conj (or_introl eq_refl) eq_refl)))))))
    as [e He'].
  exists e. split; [exact He' | congruence].
Defined.

(** ** [do_read_manifest] *)

Lemma check_ws_deps_not_optional_ok (deps : DepMap) :
  forallb (fun nd => negb (DefinedTomlDependency.is_optional (snd nd))) deps = true ->
  check_ws_deps_not_optional deps = Ok tt.
Proof.
  induction deps as [| [n d] rest IH]; simpl; [reflexivity |].
  destruct (DefinedTomlDependency.is_optional d); simpl; [discriminate | exact IH].
Qed.

Lemma check_ws_deps_not_optional_err (deps : DepMap) :
  (exists n d, In (n, d) deps /\ DefinedTomlDependency.is_optional d = true) ->
  exists n d, In (n, d) deps /\ DefinedTomlDependency.is_optional d = true
    /\ check_ws_deps_not_optional deps = Err (ws_optional_msg n).
Proof.
  induction deps as [| [n0 d0] rest IH]; intros (n & d & Hin & Hd); [destruct Hin |].
  simpl. destruct (DefinedTomlDependency.is_optional d0) eqn:E0.
  - exists n0, d0. split; [left; reflexivity |]. split; [exact E0 | reflexivity].
  - destruct Hin as [Heq | Hin]; [injection Heq as -> ->; congruence |].
    destruct (IH (ex_intro _ n (ex_intro _ d (conj Hin Hd)))) as (n' & d' & Hin' & Hd' & He).
    exists n', d'. split; [right; exact Hin' |]. split; assumption.
Qed.

(** C8: once the document converts, passes the workspace-dependency check
    and [into_real_manifest] yields its targets, [do_read_manifest] fails
    with "no targets specified" when every target is a build script (the
    empty list included), and returns the real manifest when some target is
    not a build script. *)
Theorem do_read_manifest_no_targets (TomlManifest : Type)
    (from_toml_manifest : TomlManifest -> CargoResult DefinedTomlManifest.t)
    (into_real_manifest : DefinedTomlManifest.t -> CargoResult (Manifest.t * list string))
    (into_virtual_manifest :
       DefinedTomlManifest.t -> CargoResult (VirtualManifest.t * list string))
    (raw : TomlManifest) (unused : list string) (m : DefinedTomlManifest.t)
    (rm : Manifest.t) (paths : list string)
    (Hfrom : from_toml_manifest raw = Ok m)
    (Hws : forall w deps, DefinedTomlManifest.workspace m = Some w ->
           TomlWorkspace.dependencies w = Some deps ->
           forallb (fun nd => negb (DefinedTomlDependency.is_optional (snd nd))) deps = true)
    (Hpkg : is_some (DefinedTomlManifest.package m) = true)
    (Hreal : into_real_manifest m = Ok (rm, paths)) :
  (forallb is_custom_build (Manifest.targets rm) = true ->
   do_read_manifest TomlManifest from_toml_manifest into_real_manifest into_virtual_manifest
     raw unused = Err no_targets_msg)
  /\ (existsb (fun t => negb (is_custom_build t)) (Manifest.targets rm) = true ->
      do_read_manifest TomlManifest from_toml_manifest into_real_manifest into_virtual_manifest
        raw unused
      = Ok (Real (Manifest.mk (Manifest.targets rm)
                    (add_unused unused (Manifest.warnings rm))), paths)).
Proof.
  assert (Hpre : match DefinedTomlManifest.workspace m with
                 | Some ws => match TomlWorkspace.dependencies ws with
                              | Some deps => check_ws_deps_not_optional deps
                              | None => Ok tt
                              end
                 | None => Ok tt
                 end = Ok tt).
  { destruct (DefinedTomlManifest.workspace m) as [w |] eqn:Ew; [| reflexivity].
    destruct (TomlWorkspace.dependencies w) as [deps |] eqn:Ed; [| reflexivity].
    apply check_ws_deps_not_optional_ok. exact (Hws w deps eq_refl Ed). }
  unfold do_read_manifest. rewrite Hfrom, bind_Ok, Hpre, bind_Ok.
  destruct (DefinedTomlManifest.package m) as [pkg |]; [| discriminate].
  rewrite Hreal, bind_Ok. simpl.
  split.
  - intros Hall. rewrite Hall. reflexivity.
  - intros Hex. destruct (forallb is_custom_build (Manifest.targets rm)) eqn:Hall;
      [| reflexivity].
    exfalso. apply existsb_exists in Hex. destruct Hex as (t & Hin & Ht).
    rewrite forallb_forall in Hall. rewrite (Hall t Hin) in Ht. discriminate.
Qed.

Lemma do_read_manifest_no_targets_witness :
  do_read_manifest DefinedTomlManifest.t (fun m => Ok m)
    (fun _ => Ok (Manifest.mk [build_script] [], [])) (fun _ => Ok (VirtualManifest.mk [], []))
    manifest_member [] = Err no_targets_msg
  /\ (existsb (fun t => negb (is_custom_build t)) [build_script; main_bin] = true ->
      do_read_manifest DefinedTomlManifest.t (fun m => Ok m)
        (fun _ => Ok (Manifest.mk [build_script; main_bin] [], []))
        (fun _ => Ok (VirtualManifest.mk [], []))
        manifest_member []
      = Ok (Real (Manifest.mk [build_script; main_bin] (add_unused [] [])), [])).
Proof.
  split.
  - apply (do_read_manifest_no_targets DefinedTomlManifest.t (fun m => Ok m)
             (fun _ => Ok (Manifest.mk [build_script] [], []))
             (fun _ => Ok (VirtualManifest.mk [], [])) manifest_member [] manifest_member
             (Manifest.mk [build_script] []) []); try reflexivity.
    intros w deps Hw. discriminate Hw.
  - apply (do_read_manifest_no_targets DefinedTomlManifest.t (fun m => Ok m)
             (fun _ => Ok (Manifest.mk [build_script; main_bin] [], []))
             (fun _ => Ok (VirtualManifest.mk [], [])) manifest_member [] manifest_member
             (Manifest.mk [build_script; main_bin] []) []); try reflexivity.
    intros w deps Hw. discriminate Hw.
Defined.

(** C10: once the document converts, an optional entry in its own
    [[workspace.dependencies]] makes [do_read_manifest] fail with the error
    naming an optional entry (the first one), whatever [into_real_manifest]
    and [into_virtual_manifest] would do: neither is reached. *)
Theorem do_read_manifest_optional_workspace_dependency (TomlManifest : Type)
    (from_toml_manifest : TomlManifest -> CargoResult DefinedTomlManifest.t)
    (raw : TomlManifest) (unused : list string) (m : DefinedTomlManifest.t)
    (w : TomlWorkspace.t) (deps : DepMap)
    (Hfrom : from_toml_manifest raw = Ok m)
    (Hw : DefinedTomlManifest.workspace m = Some w)
    (Hd : TomlWorkspace.dependencies w = Some deps)
    (Hopt : exists n d, In (n, d) deps /\ DefinedTomlDependency.is_optional d = true) :
  exists n d,
    In (n, d) deps /\ DefinedTomlDependency.is_optional d = true
    /\ names (ws_optional_msg n) n
    /\ forall into_real_manifest into_virtual_manifest,
         do_read_manifest TomlManifest from_toml_manifest into_real_manifest
           into_virtual_manifest raw unused = Err (ws_optional_msg n).
Proof.
  destruct (check_ws_deps_not_optional_err deps Hopt) as (n & d & Hin & Hdo & He).
  exists n, d. split; [exact Hin |]. split; [exact Hdo |].
  split; [exists "", " is optional, but workspace dependencies cannot be optional"; reflexivity |].
  intros into_real_manifest into_virtual_manifest.
  unfold do_read_manifest. rewrite Hfrom, bind_Ok, Hw, Hd, He. reflexivity.
Qed.

Lemma do_read_manifest_optional_workspace_dependency_witness :
  exists n d,
    In (n, d) [("foo", DefinedTomlDependency.Detailed
                         (TomlDependencyDetails.mk (Some "1") None None None None None
                            None None None (Some true) None None None None))]
    /\ DefinedTomlDependency.is_optional d = true
    /\ names (ws_optional_msg n) n
    /\ forall into_real_manifest into_virtual_manifest,
         do_read_manifest DefinedTomlManifest.t (fun m => Ok m) into_real_manifest
           into_virtual_manifest manifest_with_optional_ws_dep [] = Err (ws_optional_msg n).
Proof.
  apply (do_read_manifest_optional_workspace_dependency DefinedTomlManifest.t (fun m => Ok m)
           manifest_with_optional_ws_dep [] manifest_with_optional_ws_dep
           (match DefinedTomlManifest.workspace manifest_with_optional_ws_dep with
            | Some w => w | None => TomlWorkspace.empty end));
    try reflexivity.
  exists "foo", (DefinedTomlDependency.Detailed
                   (TomlDependencyDetails.mk (Some "1") None None None None None
                      None None None (Some true) None None None None)).
  split; [left; reflexivity | reflexivity].
Defined.

(** ** Properties of the profile, publication, conversion and target functions *)

Lemma profile_ind (P : TomlProfile.t -> Prop)
    (Hstep : forall p,
       match TomlProfile.package p with
       | Some l => Forall (fun kv => P (snd kv)) l
       | None => True
       end ->
       match TomlProfile.build_override p with
       | Some b => P b
       | None => True
       end -> P p) :
  forall p, P p.
Proof.
  exact (fix F (p : TomlProfile.t) : P p :=
    match p as p0 return P p0 with
    | TomlProfile.mk a b c d e f g h i pkg bo j k l =>
        Hstep (TomlProfile.mk a b c d e f g h i pkg bo j k l)
          (match pkg as o return match o with
                                 | Some l => Forall (fun kv => P (snd kv)) l
                                 | None => True
                                 end with
           | Some l0 =>
               (fix go (l1 : list (string * TomlProfile.t))
                  : Forall (fun kv => P (snd kv)) l1 :=
                  match l1 with
                  | [] => Forall_nil _
                  | (k0, v) :: rest =>
                      @Forall_cons _ (fun kv => P (snd kv)) (k0, v) rest (F v) (go rest)
                  end) l0
           | None => I
           end)
          (match bo as o return match o with Some b => P b | None => True end with
           | Some b0 => F b0
           | None => I
           end)
    end).
Qed.

Lemma or_else_same {A : Type} (a : option A) : or_else a a = a.
Proof. destruct a; reflexivity. Qed.

Lemma or_else_None_r {A : Type} (a : option A) : or_else a None = a.
Proof. destruct a; reflexivity. Qed.

Lemma map_insert_found {V : Type} (k : string) (v : V) (m : list (string * V)) :
  map_get k m = Some v -> snd (map_insert k v m) = m.
Proof.
  induction m as [| [k' v'] t IH]; simpl; [discriminate |].
  destruct (String.eqb_spec k k') as [-> | Hne].
  - intros Hv. injection Hv as ->. reflexivity.
  - intros Hv. specialize (IH Hv).
    destruct (map_insert k v t) as [prev t']. simpl in *. rewrite IH. reflexivity.
Qed.

Lemma map_get_In_NoDup {V : Type} (k : string) (v : V) (m : list (string * V)) :
  NoDup (map fst m) -> In (k, v) m -> map_get k m = Some v.
Proof.
  induction m as [| [k' v'] t IH]; simpl; [intros _ [] |].
  intros Hnd Hin. inversion Hnd as [| x l Hnotin Hnd' ]; subst.
  destruct Hin as [Heq | Hin].
  - injection Heq as -> ->. rewrite String.eqb_refl. reflexivity.
  - destruct (String.eqb_spec k k') as [-> | Hne].
    + exfalso. apply Hnotin. apply (in_map fst t (k', v)). exact Hin.
    + apply IH; assumption.
Qed.

Lemma merge_packages_same (cur other : list (string * TomlProfile.t)) :
  (forall k v, In (k, v) other ->
     map_get k cur = Some v /\ TomlProfileMerge.merge v v = v) ->
  (fix merge_packages (self_package other_package : list (string * TomlProfile.t))
       : list (string * TomlProfile.t) :=
     match other_package with
     | [] => self_package
     | (spec, other_pkg_profile) :: rest =>
         merge_packages
           (match map_get spec self_package with
            | Some p => snd (map_insert spec (TomlProfileMerge.merge p other_pkg_profile) self_package)
            | None => snd (map_insert spec other_pkg_profile self_package)
            end)
           rest
     end) cur other = cur.
Proof.
  induction other as [| [k v] rest IH]; intros H; [reflexivity |].
  destruct (H k v (or_introl eq_refl)) as [Hget Hm].
  rewrite Hget, Hm, (map_insert_found k v cur Hget).
  apply IH. intros k' v' Hin. apply H. right. exact Hin.
Qed.

Lemma keys_unique_all (l : list (string * TomlProfile.t)) :
  (fix all (l : list (string * TomlProfile.t)) : Prop :=
     match l with
     | [] => True
     | (_, v) :: rest => TomlProfileMerge.keys_unique v /\ all rest
     end) l ->
  forall k v, In (k, v) l -> TomlProfileMerge.keys_unique v.
Proof.
  induction l as [| [k0 v0] rest IH]; simpl; [intros _ _ _ [] |].
  intros [Hv Hrest] k v [Heq | Hin]; [injection Heq as -> ->; exact Hv |].
  exact (IH Hrest k v Hin).
Qed.

(** X2: Merging a profile into itself gives it back, when the keys of its [package] maps are distinct at every depth (as in a [BTreeMap]). *)
Theorem merge_idempotent (p : TomlProfile.t) :
  TomlProfileMerge.keys_unique p -> TomlProfileMerge.merge p p = p.
Proof.
  induction p as [p IHpkg IHbo] using profile_ind.
  destruct p as [a b c d e f g h i pkg bo j k l]; simpl in *.
  intros [Hpkg Hbo]. rewrite !or_else_same.
  f_equal.
  - destruct pkg as [ps |]; [| reflexivity].
    destruct Hpkg as [Hnd Hall]. f_equal. apply merge_packages_same.
    intros k0 v Hin. split; [exact (map_get_In_NoDup k0 v ps Hnd Hin) |].
    rewrite Forall_forall in IHpkg. apply (IHpkg (k0, v) Hin).
    exact (keys_unique_all ps Hall k0 v Hin).
  - destruct bo as [bo |]; [| reflexivity]. f_equal. exact (IHbo Hbo).
Qed.

Lemma merge_idempotent_witness :
  TomlProfileMerge.keys_unique scenario_d
  /\ TomlProfileMerge.merge scenario_d scenario_d = scenario_d.
Proof.
  assert (H : TomlProfileMerge.keys_unique scenario_d).
  { cbn. repeat split. constructor; [intros [] | constructor]. }
  split; [exact H | exact (merge_idempotent scenario_d H)].
Defined.

(** X1: [TomlProfile::merge] with [TomlProfile::default()] on either side gives back the other profile. *)
Theorem merge_default_identity (p : TomlProfile.t) :
  TomlProfileMerge.merge p TomlProfile.default = p
  /\ TomlProfileMerge.merge TomlProfile.default p = p.
Proof.
  destruct p as [a b c d e f g h i pkg bo j k l]. split; [reflexivity |].
  simpl. rewrite !or_else_None_r.
  destruct pkg, bo; reflexivity.
Qed.

Lemma validate_override_ok_iff (p : TomlProfile.t) (which : string) :
  TomlProfile.validate_override p which = Ok tt <->
  TomlProfile.package p = None /\ TomlProfile.build_override p = None
  /\ TomlProfile.panic p = None /\ TomlProfile.lto p = None /\ TomlProfile.rpath p = None.
Proof.
  unfold TomlProfile.validate_override.
  destruct (TomlProfile.package p), (TomlProfile.build_override p), (TomlProfile.panic p),
    (TomlProfile.lto p), (TomlProfile.rpath p); simpl;
    split; first [discriminate | intros (H1 & H2 & H3 & H4 & H5); discriminate | tauto].
Qed.

(** X3: If two profiles both pass [validate_override] for the same position, so does their merge. *)
Theorem merge_preserves_override_ok (self profile : TomlProfile.t) (which : string) :
  TomlProfile.validate_override self which = Ok tt ->
  TomlProfile.validate_override profile which = Ok tt ->
  TomlProfile.validate_override (TomlProfileMerge.merge self profile) which = Ok tt.
Proof.
  rewrite !validate_override_ok_iff.
  destruct self as [a b c d e f g h i pkg bo j k l].
  destruct profile as [a' b' c' d' e' f' g' h' i' pkg' bo' j' k' l'].
  simpl. intros (-> & -> & -> & -> & ->) (-> & -> & -> & -> & ->).
  repeat split.
Qed.

Lemma merge_preserves_override_ok_witness :
  TomlProfile.validate_override opt_level_3 "package" = Ok tt
  /\ TomlProfile.validate_override debug_2 "package" = Ok tt
  /\ TomlProfile.validate_override (TomlProfileMerge.merge opt_level_3 debug_2) "package" = Ok tt.
Proof.
  split; [reflexivity | split; [reflexivity |]].
  apply merge_preserves_override_ok; reflexivity.
Defined.

Lemma map_insert_keys {V : Type} (k : string) (v : V) (m : list (string * V)) :
  forall k', In k' (map fst (snd (map_insert k v m))) <-> k' = k \/ In k' (map fst m).
Proof.
  induction m as [| [k0 v0] t IH]; simpl; intros k'.
  - intuition (subst; auto).
  - destruct (String.eqb_spec k k0) as [-> | Hne]; simpl.
    + intuition (subst; auto).
    + specialize (IH k'). destruct (map_insert k v t) as [prev t']. simpl in *.
      rewrite IH. intuition (subst; auto).
Qed.

Lemma merge_packages_keys (cur other : list (string * TomlProfile.t)) :
  forall k',
  In k' (map fst
    ((fix merge_packages (self_package other_package : list (string * TomlProfile.t))
         : list (string * TomlProfile.t) :=
       match other_package with
       | [] => self_package
       | (spec, other_pkg_profile) :: rest =>
           merge_packages
             (match map_get spec self_package with
              | Some p => snd (map_insert spec (TomlProfileMerge.merge p other_pkg_profile) self_package)
              | None => snd (map_insert spec other_pkg_profile self_package)
              end)
             rest
       end) cur other))
  <-> In k' (map fst cur) \/ In k' (map fst other).
Proof.
  revert cur. induction other as [| [spec o] rest IH]; intros cur k'; simpl.
  - tauto.
  - rewrite IH.
    destruct (map_get spec cur); rewrite map_insert_keys; intuition (subst; auto).
Qed.

(** X4: The [package] table of a merged profile holds exactly the specs that either profile's [package] table holds. *)
Theorem merge_package_keys (self profile : TomlProfile.t) :
  forall spec,
  (match TomlProfile.package self with Some l => In spec (map fst l) | None => False end
   \/ match TomlProfile.package profile with Some l => In spec (map fst l) | None => False end)
  <-> match TomlProfile.package (TomlProfileMerge.merge self profile) with
      | Some l => In spec (map fst l)
      | None => False
      end.
Proof.
  intros spec.
  destruct self as [a b c d e f g h i pkg bo j k l].
  destruct profile as [a' b' c' d' e' f' g' h' i' pkg' bo' j' k' l'].
  simpl. destruct pkg' as [op |]; destruct pkg as [sp |]; try tauto.
  rewrite merge_packages_keys. tauto.
Qed.




(** [validate_name] accepts [café] ([é] is U+00E9, bytes [C3 A9]) and
    rejects [a b] at its space. *)
Lemma validate_name_unicode_samples :
  TomlProfile.validate_name env0
    ("caf" ++ String (ascii_of_nat 195) (String (ascii_of_nat 169) EmptyString))
    "profile name" = Ok tt
  /\ TomlProfile.validate_name env0 "a b" "profile name"
     = Err "Invalid character ` ` in profile name: `a b`".
Proof. split; reflexivity. Qed.

Ltac peel_binds H :=
  repeat match type of H with
         | bind ?r _ = Ok _ =>
             let E := fresh "E" in
             destruct r as [[] | ?] eqn:E; [cbn [bind] in H | discriminate H]
         | bind ?r _ = Ok _ =>
             let E := fresh "E" in
             destruct r eqn:E; [cbn [bind] in H | discriminate H]
         end.

Lemma validate_warnings_extend (env : Env) (p : TomlProfile.t) (name : string)
    (warnings warnings' : list string) :
  TomlProfile.validate env p name warnings = Ok warnings' ->
  exists l, warnings' = (warnings ++ l)%list.
Proof.
  unfold TomlProfile.validate. intros H. peel_binds H.
  injection H as <-.
  repeat match goal with |- context [if ?b then _ else _] => destruct b end;
  first [ eexists; reflexivity
        | eexists; rewrite <- app_assoc; reflexivity
        | exists []; rewrite app_nil_r; reflexivity ].
Qed.

Lemma validate_package_overrides_ok (packages : list (string * TomlProfile.t)) :
  TomlProfile.validate_package_overrides packages = Ok tt ->
  forall s o, In (s, o) packages -> TomlProfile.validate_override o "package" = Ok tt.
Proof.
  induction packages as [| [s0 o0] rest IH]; simpl; [intros _ s o [] |].
  destruct (TomlProfile.validate_override o0 "package") as [[] | e] eqn:E;
    simpl; [| discriminate].
  intros Hrest s o [Heq | Hin]; [injection Heq as -> ->; exact E | exact (IH Hrest s o Hin)].
Qed.

Lemma validate_values (env : Env) (p : TomlProfile.t) (name : string) (ws ws' : list string) :
  TomlProfile.validate env p name ws = Ok ws' -> profile_values_ok env name p.
Proof.
  unfold TomlProfile.validate. intros H. peel_binds H.
  unfold profile_values_ok.
  repeat split.
  - destruct (TomlProfile.panic p) as [pa |] eqn:Hpa; [| left; reflexivity].
    simpl in E7.
    right. destruct (String.eqb_spec pa "unwind") as [Hu | Hu]; [left; rewrite Hu; reflexivity |].
    destruct (String.eqb_spec pa "abort") as [Ha | Ha]; [right; rewrite Ha; reflexivity |].
    simpl in E7. discriminate E7.
  - assumption.
  - intros dn Hdn. rewrite Hdn in *. assumption.
  - intros i Hi. rewrite Hi in *. assumption.
  - intros bo Hbo. rewrite Hbo in *. destruct (require env "profile-overrides");
      [exact E | discriminate].
  - intros pk Hpk. rewrite Hpk in *. apply validate_package_overrides_ok.
    destruct (require env "profile-overrides"); [exact E0 | discriminate].
Qed.

(** X6: A profile that passes [TomlProfile::validate] sets [package] or [build-override] only if [profile-overrides] is enabled. It sets [inherits] or [dir-name], or has a non-built-in name, only if [named-profiles] is enabled. It sets [strip] only if [strip] is enabled. *)
Theorem validate_feature_gates (env : Env) (p : TomlProfile.t) (name : string)
    (ws ws' : list string) :
  TomlProfile.validate env p name ws = Ok ws' ->
  (require env "profile-overrides" <> Ok tt ->
     TomlProfile.package p = None /\ TomlProfile.build_override p = None)
  /\ (require env "named-profiles" <> Ok tt ->
        TomlProfile.is_builtin_profile name = true
        /\ TomlProfile.inherits p = None /\ TomlProfile.dir_name p = None)
  /\ (require env "strip" <> Ok tt -> TomlProfile.strip p = None).
Proof.
  unfold TomlProfile.validate. intros H. peel_binds H.
  split; [| split].
  - intros Hpo. split.
    + destruct (TomlProfile.package p); [| reflexivity].
      destruct (require env "profile-overrides") as [[] |]; [congruence | discriminate].
    + destruct (TomlProfile.build_override p); [| reflexivity].
      destruct (require env "profile-overrides") as [[] |]; [congruence | discriminate].
  - intros Hnp. split; [| split].
    + destruct (TomlProfile.is_builtin_profile name); [reflexivity |].
      destruct (require env "named-profiles") as [[] |]; [congruence | discriminate].
    + destruct (TomlProfile.inherits p); [| reflexivity].
      simpl in E3. destruct (require env "named-profiles") as [[] |]; [congruence | discriminate].
    + destruct (TomlProfile.dir_name p); [| reflexivity].
      simpl in E4. destruct (require env "named-profiles") as [[] |]; [congruence | discriminate].
  - intros Hs. destruct (TomlProfile.strip p); [| reflexivity].
    simpl in E8. destruct (require env "strip") as [[] |]; [congruence | discriminate].
Qed.

Lemma validate_feature_gates_witness :
  exists ws', TomlProfile.validate env_no_features opt_level_3 "release" [] = Ok ws'
  /\ (require env_no_features "profile-overrides" <> Ok tt ->
        TomlProfile.package opt_level_3 = None /\ TomlProfile.build_override opt_level_3 = None)
  /\ (require env_no_features "named-profiles" <> Ok tt ->
        TomlProfile.is_builtin_profile "release" = true
        /\ TomlProfile.inherits opt_level_3 = None /\ TomlProfile.dir_name opt_level_3 = None)
  /\ (require env_no_features "strip" <> Ok tt -> TomlProfile.strip opt_level_3 = None).
Proof.
  eexists. split; [reflexivity |].
  eapply (validate_feature_gates env_no_features opt_level_3 "release" []). reflexivity.
Defined.

(** X7: [TomlProfiles::validate] only appends to the warnings it is given. *)
Theorem profiles_validate_appends (env : Env) (profiles : list (string * TomlProfile.t))
    (warnings warnings' : list string) :
  TomlProfiles.validate env profiles warnings = Ok warnings' ->
  exists l, warnings' = (warnings ++ l)%list.
Proof.
  revert warnings. induction profiles as [| [name p] rest IH]; simpl; intros warnings H.
  - injection H as <-. exists []. rewrite app_nil_r. reflexivity.
  - destruct (TomlProfile.validate env p name warnings) as [w1 | e] eqn:E; [| discriminate].
    simpl in H. destruct (validate_warnings_extend env p name warnings w1 E) as [l1 ->].
    destruct (IH _ H) as [l2 ->]. exists (l1 ++ l2)%list. symmetry. apply app_assoc.
Qed.

Lemma profiles_validate_appends_witness :
  exists ws', TomlProfiles.validate env0 [("release", opt_level_3); ("dev", debug_2)] [] = Ok ws'
  /\ exists l, ws' = ([] ++ l)%list.
Proof.
  eexists. split; [reflexivity |].
  eapply (profiles_validate_appends env0 [("release", opt_level_3); ("dev", debug_2)]). reflexivity.
Defined.

(** X8: Every profile of a table that passes [TomlProfiles::validate] has a valid name, a [panic] of [unwind] or [abort] when set, a valid [dir-name] and [inherits] when set, and overrides that carry none of the keys an override may not set. *)
Theorem profiles_validate_values (env : Env) (profiles : list (string * TomlProfile.t))
    (warnings warnings' : list string) :
  TomlProfiles.validate env profiles warnings = Ok warnings' ->
  forall name p, In (name, p) profiles -> profile_values_ok env name p.
Proof.
  revert warnings. induction profiles as [| [name0 p0] rest IH]; simpl;
    intros warnings H name p Hin; [destruct Hin |].
  destruct (TomlProfile.validate env p0 name0 warnings) as [w1 | e] eqn:E; [| discriminate].
  simpl in H. destruct Hin as [Heq | Hin].
  - injection Heq as -> ->. exact (validate_values env p name warnings w1 E).
  - exact (IH w1 H name p Hin).
Qed.

Lemma profiles_validate_values_witness :
  exists ws', TomlProfiles.validate env0 [("release", opt_level_3); ("dev", debug_2)] [] = Ok ws'
  /\ forall name p, In (name, p) [("release", opt_level_3); ("dev", debug_2)] ->
     profile_values_ok env0 name p.
Proof.
  eexists. split; [reflexivity |].
  eapply (profiles_validate_values env0 [("release", opt_level_3); ("dev", debug_2)] []).
  reflexivity.
Defined.

Lemma map_entries_keys {T R : Type} (f : string -> T -> CargoResult R) l l' :
  map_entries f l = Ok l' ->
  map fst l' = map fst l
  /\ (forall k r, In (k, r) l' -> exists v, In (k, v) l /\ f k v = Ok r).
Proof.
  revert l'; induction l as [| [k v] rest IH]; intros l' H; simpl in H.
  - injection H as <-. split; [reflexivity | intros k r []].
  - destruct (f k v) as [r |] eqn:Ef; [| discriminate]. simpl in H.
    destruct (map_entries f rest) as [rest' |]; [| discriminate]. simpl in H.
    injection H as <-. destruct (IH rest' eq_refl) as [Hk Hin]. split.
    + simpl. rewrite Hk. reflexivity.
    + intros k' r' [Heq | Hr].
      * injection Heq as <- <-. exists v. split; [left; reflexivity | exact Ef].
      * destruct (Hin k' r' Hr) as [v' [Hv Ev]]. exists v'. split; [right; exact Hv | exact Ev].
Qed.

Lemma map_entries_err {T R : Type} (f : string -> T -> CargoResult R) l e :
  map_entries f l = Err e -> exists k v, In (k, v) l /\ f k v = Err e.
Proof.
  induction l as [| [k v] rest IH]; intros H; simpl in H; [discriminate |].
  destruct (f k v) as [r |] eqn:Ef; simpl in H.
  - destruct (map_entries f rest) as [rest' |]; simpl in H; [discriminate |].
    injection H as ->. destruct (IH eq_refl) as [k' [v' [Hin E]]].
    exists k', v'. split; [right; exact Hin | exact E].
  - injection H as ->. exists k, v. split; [left; reflexivity | exact Ef].
Qed.

Lemma map_entries_ok {T R : Type} (f : string -> T -> CargoResult R) l :
  (forall k v, In (k, v) l -> exists r, f k v = Ok r) ->
  exists l', map_entries f l = Ok l'.
Proof.
  induction l as [| [k v] rest IH]; intros H; simpl; [eexists; reflexivity |].
  destruct (H k v (or_introl eq_refl)) as [r Er]. rewrite Er. simpl.
  destruct IH as [l' E]; [intros k' v' Hin; apply H; right; exact Hin |].
  rewrite E. eexists; reflexivity.
Qed.

Lemma map_dependency_shape env dep dep' :
  map_dependency env dep = Ok dep' ->
  exists d', dep' = DefinedTomlDependency.Detailed d'
  /\ TomlDependencyDetails.registry d' = None
  /\ TomlDependencyDetails.path d' = None
  /\ TomlDependencyDetails.git d' = None
  /\ TomlDependencyDetails.branch d' = None
  /\ TomlDependencyDetails.tag d' = None
  /\ TomlDependencyDetails.rev d' = None.
Proof.
  destruct dep as [s | d]; simpl; intros H.
  - injection H as <-. eexists; repeat split; reflexivity.
  - destruct (TomlDependencyDetails.registry d) as [r |].
    + destruct (alt_registry env r); simpl in H; [| discriminate].
      injection H as <-. eexists; repeat split; reflexivity.
    + simpl in H. injection H as <-. eexists; repeat split; reflexivity.
Qed.

Lemma map_dependency_publish_ready env dep dep' :
  map_dependency env dep = Ok dep' -> publish_ready dep' = true.
Proof.
  intros H. destruct (map_dependency_shape env dep dep' H)
    as [d' [-> [H1 [H2 [H3 [H4 [H5 H6]]]]]]].
  simpl. rewrite H1, H2, H3, H4, H5, H6. reflexivity.
Qed.

Lemma map_dependency_version_specified env dep dep' :
  map_dependency env dep = Ok dep' ->
  DefinedTomlDependency.is_version_specified dep'
  = DefinedTomlDependency.is_version_specified dep.
Proof.
  destruct dep as [s | d]; simpl; intros H.
  - injection H as <-. reflexivity.
  - destruct (TomlDependencyDetails.registry d) as [r |].
    + destruct (alt_registry env r); simpl in H; [| discriminate].
      injection H as <-. reflexivity.
    + simpl in H. injection H as <-. reflexivity.
Qed.

(** X9: [map_dependency] fails only on a detailed dependency whose [registry] names a registry that [alt_registry] cannot resolve, with that error. *)
Theorem map_dependency_error (env : Env) (dep : DefinedTomlDependency.t) (e : string) :
  map_dependency env dep = Err e ->
  exists d r, dep = DefinedTomlDependency.Detailed d
  /\ TomlDependencyDetails.registry d = Some r /\ alt_registry env r = Err e.
Proof.
  destruct dep as [s | d]; simpl; intros H; [discriminate |].
  destruct (TomlDependencyDetails.registry d) as [r |] eqn:Er.
  - destruct (alt_registry env r) eqn:Ea; simpl in H; [discriminate |].
    injection H as ->. exists d, r. repeat split; assumption.
  - discriminate.
Qed.

Lemma map_dependency_error_witness :
  exists e, map_dependency env_no_features (DefinedTomlDependency.Detailed alt_registry_dep) = Err e
  /\ exists d r, DefinedTomlDependency.Detailed alt_registry_dep = DefinedTomlDependency.Detailed d
     /\ TomlDependencyDetails.registry d = Some r /\ alt_registry env_no_features r = Err e.
Proof.
  eexists. split; [reflexivity |].
  eapply (map_dependency_error env_no_features). reflexivity.
Defined.

Lemma map_dependency_fixed (env : Env) (dep dep' : DefinedTomlDependency.t) :
  map_dependency env dep = Ok dep' -> map_dependency env dep' = Ok dep'.
Proof.
  destruct dep as [s | d]; simpl; intros H.
  - injection H as <-. reflexivity.
  - destruct (TomlDependencyDetails.registry d) as [r |].
    + destruct (alt_registry env r); simpl in H; [| discriminate].
      injection H as <-. reflexivity.
    + simpl in H. injection H as <-. reflexivity.
Qed.

Lemma forallb_In_kv {A : Type} (p : A -> bool) (l : list (string * A)) :
  (forall k v, In (k, v) l -> p v = true) -> forallb (fun kv => p (snd kv)) l = true.
Proof.
  intros H. apply forallb_forall. intros [k v] Hin. exact (H k v Hin).
Qed.

Lemma map_entries_fixed {T : Type} (f : string -> T -> CargoResult T) l :
  (forall k v, In (k, v) l -> f k v = Ok v) -> map_entries f l = Ok l.
Proof.
  induction l as [| [k v] rest IH]; intros H; simpl; [reflexivity |].
  rewrite (H k v (or_introl eq_refl)). simpl.
  rewrite IH; [reflexivity | intros k' v' Hin; apply H; right; exact Hin].
Qed.

Lemma filter_all_true {A : Type} (p : A -> bool) (l : list A) :
  (forall x, In x l -> p x = true) -> List.filter p l = l.
Proof.
  induction l as [| x rest IH]; intros H; simpl; [reflexivity |].
  rewrite (H x (or_introl eq_refl)). f_equal. apply IH. intros y Hy. apply H. right. exact Hy.
Qed.

Lemma map_deps_result env deps filter out :
  map_deps env deps filter = Ok out ->
  option_map (map fst) out
  = option_map (fun l => map fst (List.filter (fun kv => filter (snd kv)) l)) deps
  /\ table_publish_ready out = true
  /\ (forall k r, match out with Some l => In (k, r) l | None => False end ->
      exists v, filter v = true /\ map_dependency env v = Ok r).
Proof.
  destruct deps as [l |]; simpl; intros H.
  - destruct (map_entries (fun _ v => map_dependency env v)
                (List.filter (fun kv => filter (snd kv)) l)) as [l' |] eqn:E;
      simpl in H; [| discriminate].
    injection H as <-. destruct (map_entries_keys _ _ _ E) as [Hk Hin].
    split; [simpl; rewrite Hk; reflexivity |]. split.
    + simpl. apply forallb_In_kv. intros k r Hr.
      destruct (Hin k r Hr) as [v [_ Ev]]. exact (map_dependency_publish_ready env v r Ev).
    + intros k r Hr. destruct (Hin k r Hr) as [v [Hv Ev]].
      apply filter_In in Hv. exists v. split; [exact (proj2 Hv) | exact Ev].
  - injection H as <-. repeat split. intros k r [].
Qed.

Lemma map_deps_stable env deps filter out :
  (forall dep dep', map_dependency env dep = Ok dep' -> filter dep' = filter dep) ->
  map_deps env deps filter = Ok out -> map_deps env out filter = Ok out.
Proof.
  intros Hf H. destruct (map_deps_result env deps filter out H) as [_ [_ Hin]].
  destruct out as [l' |]; [| reflexivity]. simpl.
  rewrite filter_all_true.
  - rewrite map_entries_fixed; [reflexivity |].
    intros k r Hr. destruct (Hin k r Hr) as [v [_ Ev]].
    exact (map_dependency_fixed env v r Ev).
  - intros [k r] Hr. destruct (Hin k r Hr) as [v [Hv Ev]]. simpl.
    rewrite (Hf v r Ev). exact Hv.
Qed.

Lemma publish_targets_result env ts ts' :
  publish_targets env ts = Ok ts' ->
  map fst ts' = map fst ts
  /\ forallb (fun kv => platform_publish_ready (snd kv)) ts' = true
  /\ publish_targets env ts' = Ok ts'.
Proof.
  revert ts'; induction ts as [| [k v] rest IH]; intros ts' H; simpl in H.
  - injection H as <-. repeat split.
  - destruct (map_deps env (DefinedTomlPlatform.dependencies v) (fun _ => true)) as [d |] eqn:E1;
      simpl in H; [| discriminate].
    destruct (map_deps env (or_else (DefinedTomlPlatform.dev_dependencies v)
                                    (DefinedTomlPlatform.dev_dependencies2 v))
                DefinedTomlDependency.is_version_specified) as [dv |] eqn:E2;
      simpl in H; [| discriminate].
    destruct (map_deps env (or_else (DefinedTomlPlatform.build_dependencies v)
                                    (DefinedTomlPlatform.build_dependencies2 v))
                (fun _ => true)) as [b |] eqn:E3; simpl in H; [| discriminate].
    destruct (publish_targets env rest) as [rest' |] eqn:E4; simpl in H; [| discriminate].
    injection H as <-. destruct (IH rest' eq_refl) as [Hk [Hr Hs]].
    destruct (map_deps_result _ _ _ _ E1) as [_ [R1 _]].
    destruct (map_deps_result _ _ _ _ E2) as [_ [R2 _]].
    destruct (map_deps_result _ _ _ _ E3) as [_ [R3 _]].
    split; [simpl; rewrite Hk; reflexivity |]. split.
    + simpl. rewrite Hr. unfold platform_publish_ready. simpl. rewrite R1, R2, R3. reflexivity.
    + simpl. rewrite !or_else_None_r.
      rewrite (map_deps_stable env _ (fun _ => true) d (fun _ _ _ => eq_refl) E1). simpl.
      rewrite (map_deps_stable env _ _ dv (map_dependency_version_specified env) E2). simpl.
      rewrite (map_deps_stable env _ (fun _ => true) b (fun _ _ _ => eq_refl) E3). simpl.
      rewrite Hs. reflexivity.
Qed.

Lemma add_resolver_feature_idem (resolver : option string) (cargo_features : option (list string)) :
  add_resolver_feature resolver (add_resolver_feature resolver cargo_features)
  = add_resolver_feature resolver cargo_features.
Proof.
  unfold add_resolver_feature. destruct resolver as [r |]; simpl; [| reflexivity].
  destruct cargo_features as [l |]; simpl; [| reflexivity].
  destruct (existsb (fun feat => String.eqb feat "resolver") l) eqn:E; simpl.
  - rewrite E. reflexivity.
  - rewrite existsb_app, E. reflexivity.
Qed.

(** What a successful [prepare_for_publish] is made of. *)
Lemma prepare_for_publish_inv (env : Env) (resolver : option string) (mf : string)
    (me me' : DefinedTomlManifest.t) :
  prepare_for_publish env resolver mf me = Ok me' ->
  exists root pkg pkg',
    path_parent env mf = Some root
    /\ DefinedTomlManifest.package me = Some pkg
    /\ DefinedTomlManifest.package me' = Some pkg'
    /\ DefinedTomlPackage.name pkg' = DefinedTomlPackage.name pkg
    /\ DefinedTomlPackage.workspace pkg' = None
    /\ DefinedTomlPackage.resolver pkg' = resolver
    /\ match DefinedTomlPackage.license_file pkg with
       | Some lf =>
           if strip_prefix_ok env (normalize_path env (join_path env root lf)) root
           then DefinedTomlPackage.license_file pkg' = Some lf
           else exists f, file_name env lf = Some f
                          /\ DefinedTomlPackage.license_file pkg' = Some f
       | None => DefinedTomlPackage.license_file pkg' = None
       end
    /\ DefinedTomlManifest.cargo_features me'
       = add_resolver_feature resolver (DefinedTomlManifest.cargo_features me)
    /\ map_deps env (DefinedTomlManifest.dependencies me) (fun _ => true)
       = Ok (DefinedTomlManifest.dependencies me')
    /\ map_deps env (DefinedTomlManifest.dev_dependencies me)
         DefinedTomlDependency.is_version_specified
       = Ok (DefinedTomlManifest.dev_dependencies me')
    /\ map_deps env (DefinedTomlManifest.build_dependencies me) (fun _ => true)
       = Ok (DefinedTomlManifest.build_dependencies me')
    /\ match DefinedTomlManifest.target me with
       | Some ts => exists ts', publish_targets env ts = Ok ts'
                                /\ DefinedTomlManifest.target me' = Some ts'
       | None => DefinedTomlManifest.target me' = None
       end
    /\ DefinedTomlManifest.workspace me' = None.
Proof.
  unfold prepare_for_publish, unwrap. intros H.
  destruct (path_parent env mf) as [root |] eqn:Hroot; simpl in H; [| discriminate].
  destruct (DefinedTomlManifest.package me) as [[n w lf r] |] eqn:Hpkg; simpl in H;
    [| discriminate].
  exists root, (DefinedTomlPackage.mk n w lf r).
  destruct lf as [lf |]; simpl in H;
    [ destruct (strip_prefix_ok env (normalize_path env (join_path env root lf)) root) eqn:Es;
      simpl in H;
      [ | destruct (file_name env lf) as [f |] eqn:Ef; simpl in H; [| discriminate] ]
    | ];
  destruct (map_deps env (DefinedTomlManifest.dependencies me) (fun _ => true)) as [d |] eqn:E1;
    simpl in H; try discriminate;
  destruct (map_deps env (DefinedTomlManifest.dev_dependencies me)
              DefinedTomlDependency.is_version_specified) as [dv |] eqn:E2;
    simpl in H; try discriminate;
  destruct (map_deps env (DefinedTomlManifest.build_dependencies me) (fun _ => true))
    as [b |] eqn:E3; simpl in H; try discriminate;
  destruct (DefinedTomlManifest.target me) as [ts |] eqn:Et; simpl in H;
  try (destruct (publish_targets env ts) as [ts' |] eqn:E4; simpl in H; try discriminate);
  injection H as <-; eexists;
  repeat split; simpl; try rewrite Es; try reflexivity;
  try (eexists; split; [eassumption | reflexivity]);
  try (eexists; split; reflexivity).
Qed.

(** X10: After [prepare_for_publish] no dependency of any table (top level or per target) has a [registry], [path], [git], [branch], [tag] or [rev] key, the [workspace] table is dropped, and the package keeps its name. *)
Theorem prepare_for_publish_ready (env : Env) (resolver : option string) (mf : string)
    (me me' : DefinedTomlManifest.t) :
  prepare_for_publish env resolver mf me = Ok me' ->
  manifest_publish_ready me' = true
  /\ DefinedTomlManifest.workspace me' = None
  /\ option_map DefinedTomlPackage.name (DefinedTomlManifest.package me')
     = option_map DefinedTomlPackage.name (DefinedTomlManifest.package me).
Proof.
  intros H.
  destruct (prepare_for_publish_inv _ _ _ _ _ H)
    as (root & pkg & pkg' & _ & Hp & Hp' & Hn & _ & _ & _ & _ & E1 & E2 & E3 & Et & Hw).
  destruct (map_deps_result _ _ _ _ E1) as [_ [R1 _]].
  destruct (map_deps_result _ _ _ _ E2) as [_ [R2 _]].
  destruct (map_deps_result _ _ _ _ E3) as [_ [R3 _]].
  unfold manifest_publish_ready. rewrite R1, R2, R3, Hp, Hp'. simpl. rewrite Hn.
  split; [| split; [exact Hw | reflexivity]].
  destruct (DefinedTomlManifest.target me) as [ts |].
  - destruct Et as [ts' [E4 ->]].
    destruct (publish_targets_result _ _ _ E4) as [_ [R4 _]]. exact R4.
  - rewrite Et. reflexivity.
Qed.

Lemma prepare_for_publish_ready_witness :
  exists me', prepare_for_publish env0 None "/ws/member/Cargo.toml" manifest_for_publish = Ok me'
  /\ manifest_publish_ready me' = true
  /\ DefinedTomlManifest.workspace me' = None
  /\ option_map DefinedTomlPackage.name (DefinedTomlManifest.package me')
     = option_map DefinedTomlPackage.name (DefinedTomlManifest.package manifest_for_publish).
Proof.
  eexists. split; [reflexivity |].
  eapply (prepare_for_publish_ready env0 None "/ws/member/Cargo.toml" manifest_for_publish).
  reflexivity.
Defined.

Lemma map_deps_all_keys env deps out :
  map_deps env deps (fun _ => true) = Ok out ->
  option_map (map fst) out = option_map (map fst) deps.
Proof.
  intros H. destruct (map_deps_result _ _ _ _ H) as [Hk _]. rewrite Hk.
  destruct deps as [l |]; [| reflexivity]. simpl.
  rewrite filter_all_true; reflexivity.
Qed.

(** X11: [prepare_for_publish] keeps every key of the [dependencies], [build-dependencies] and [target] tables, and keeps exactly the dev-dependencies that specify a version, in their order. *)
Theorem prepare_for_publish_keys (env : Env) (resolver : option string) (mf : string)
    (me me' : DefinedTomlManifest.t) :
  prepare_for_publish env resolver mf me = Ok me' ->
  option_map (map fst) (DefinedTomlManifest.dependencies me')
  = option_map (map fst) (DefinedTomlManifest.dependencies me)
  /\ option_map (map fst) (DefinedTomlManifest.build_dependencies me')
     = option_map (map fst) (DefinedTomlManifest.build_dependencies me)
  /\ option_map (map fst) (DefinedTomlManifest.dev_dependencies me')
     = option_map (fun l => map fst (List.filter (fun kv =>
                     DefinedTomlDependency.is_version_specified (snd kv)) l))
                  (DefinedTomlManifest.dev_dependencies me)
  /\ option_map (map fst) (DefinedTomlManifest.target me')
     = option_map (map fst) (DefinedTomlManifest.target me).
Proof.
  intros H.
  destruct (prepare_for_publish_inv _ _ _ _ _ H)
    as (root & pkg & pkg' & _ & _ & _ & _ & _ & _ & _ & _ & E1 & E2 & E3 & Et & _).
  destruct (map_deps_result _ _ _ _ E2) as [K2 _].
  rewrite (map_deps_all_keys _ _ _ E1), (map_deps_all_keys _ _ _ E3), K2.
  repeat split.
  destruct (DefinedTomlManifest.target me) as [ts |].
  - destruct Et as [ts' [E4 ->]].
    destruct (publish_targets_result _ _ _ E4) as [K4 _]. simpl. rewrite K4. reflexivity.
  - rewrite Et. reflexivity.
Qed.

Lemma prepare_for_publish_keys_witness :
  exists me', prepare_for_publish env0 None "/ws/member/Cargo.toml" manifest_for_publish = Ok me'
  /\ option_map (map fst) (DefinedTomlManifest.dependencies me')
     = option_map (map fst) (DefinedTomlManifest.dependencies manifest_for_publish)
  /\ option_map (map fst) (DefinedTomlManifest.build_dependencies me')
     = option_map (map fst) (DefinedTomlManifest.build_dependencies manifest_for_publish)
  /\ option_map (map fst) (DefinedTomlManifest.dev_dependencies me')
     = option_map (fun l => map fst (List.filter (fun kv =>
                     DefinedTomlDependency.is_version_specified (snd kv)) l))
                  (DefinedTomlManifest.dev_dependencies manifest_for_publish)
  /\ option_map (map fst) (DefinedTomlManifest.target me')
     = option_map (map fst) (DefinedTomlManifest.target manifest_for_publish).
Proof.
  eexists. split; [reflexivity |].
  eapply (prepare_for_publish_keys env0 None "/ws/member/Cargo.toml" manifest_for_publish).
  reflexivity.
Defined.

(** X12: Preparing an already prepared manifest for publication, for the same workspace and manifest path, gives it back unchanged, provided a bare file name joined to the package root and normalised stays inside that root. *)
Theorem prepare_for_publish_idempotent (env : Env) (resolver : option string) (mf : string)
    (me me' : DefinedTomlManifest.t)
    (Hstay : forall root lf f, path_parent env mf = Some root -> file_name env lf = Some f ->
               strip_prefix_ok env (normalize_path env (join_path env root f)) root = true) :
  prepare_for_publish env resolver mf me = Ok me' ->
  prepare_for_publish env resolver mf me' = Ok me'.
Proof.
  intros H.
  destruct (prepare_for_publish_inv _ _ _ _ _ H)
    as (root & pkg & pkg' & Hroot & _ & Hp' & _ & Hw & Hr & Hl & Hc & E1 & E2 & E3 & Et & Hws).
  assert (Hl' : match DefinedTomlPackage.license_file pkg' with
                | Some lf => strip_prefix_ok env (normalize_path env (join_path env root lf)) root
                             = true
                | None => True
                end).
  { destruct (DefinedTomlPackage.license_file pkg) as [lf |].
    - destruct (strip_prefix_ok env (normalize_path env (join_path env root lf)) root) eqn:Es.
      + rewrite Hl. exact Es.
      + destruct Hl as [f [Hf ->]]. exact (Hstay root lf f Hroot Hf).
    - rewrite Hl. exact I. }
  destruct me' as [c0 p0 d0 dv0 b0 t0 ws0]; simpl in *. subst c0 p0 ws0.
  unfold prepare_for_publish, unwrap. rewrite Hroot. simpl.
  destruct pkg' as [n w lf r]. simpl in Hw, Hr, Hl' |- *. subst w r.
  rewrite add_resolver_feature_idem.
  destruct lf as [lf |]; [rewrite Hl' |]; simpl;
  rewrite (map_deps_stable env _ (fun _ => true) _ (fun _ _ _ => eq_refl) E1); simpl;
  rewrite (map_deps_stable env _ _ _ (map_dependency_version_specified env) E2); simpl;
  rewrite (map_deps_stable env _ (fun _ => true) _ (fun _ _ _ => eq_refl) E3); simpl;
  (destruct (DefinedTomlManifest.target me) as [ts |];
   [ destruct Et as [ts' [E4 ->]];
     destruct (publish_targets_result _ _ _ E4) as [_ [_ S]]; rewrite S; simpl
   | rewrite Et; simpl ]);
  reflexivity.
Qed.

Lemma prepare_for_publish_idempotent_witness :
  exists me', prepare_for_publish env0 None "/ws/member/Cargo.toml" manifest_for_publish = Ok me'
  /\ prepare_for_publish env0 None "/ws/member/Cargo.toml" me' = Ok me'.
Proof.
  eexists. split; [reflexivity |].
  eapply (prepare_for_publish_idempotent env0 None "/ws/member/Cargo.toml" manifest_for_publish).
  - intros root lf f Hp _. vm_compute in Hp. injection Hp as <-. reflexivity.
  - reflexivity.
Defined.

(** X27: After [prepare_for_publish] the package keeps its name, has no [workspace] key and carries the workspace's resolver; its [license-file] is kept when, joined to the package root and normalised, it stays under that root, and is replaced by its file name otherwise; [cargo-features] gains [resolver] as [add_resolver_feature] describes. *)
Theorem prepare_for_publish_package (env : Env) (resolver : option string) (mf : string)
    (me me' : DefinedTomlManifest.t) :
  prepare_for_publish env resolver mf me = Ok me' ->
  exists root pkg pkg',
    path_parent env mf = Some root
    /\ DefinedTomlManifest.package me = Some pkg
    /\ DefinedTomlManifest.package me' = Some pkg'
    /\ DefinedTomlPackage.name pkg' = DefinedTomlPackage.name pkg
    /\ DefinedTomlPackage.workspace pkg' = None
    /\ DefinedTomlPackage.resolver pkg' = resolver
    /\ match DefinedTomlPackage.license_file pkg with
       | Some lf =>
           if strip_prefix_ok env (normalize_path env (join_path env root lf)) root
           then DefinedTomlPackage.license_file pkg' = Some lf
           else exists f, file_name env lf = Some f
                          /\ DefinedTomlPackage.license_file pkg' = Some f
       | None => DefinedTomlPackage.license_file pkg' = None
       end
    /\ DefinedTomlManifest.cargo_features me'
       = add_resolver_feature resolver (DefinedTomlManifest.cargo_features me).
Proof.
  intros H.
  destruct (prepare_for_publish_inv _ _ _ _ _ H)
    as (root & pkg & pkg' & Hroot & Hp & Hp' & Hn & Hw & Hr & Hl & Hc & _).
  exists root, pkg, pkg'. repeat (split; [assumption |]). exact Hc.
Qed.

Lemma prepare_for_publish_package_witness :
  exists me', prepare_for_publish env0 (Some "2") "/ws/member/Cargo.toml" manifest_for_publish
              = Ok me'
  /\ exists root pkg pkg',
    path_parent env0 "/ws/member/Cargo.toml" = Some root
    /\ DefinedTomlManifest.package manifest_for_publish = Some pkg
    /\ DefinedTomlManifest.package me' = Some pkg'
    /\ DefinedTomlPackage.name pkg' = DefinedTomlPackage.name pkg
    /\ DefinedTomlPackage.workspace pkg' = None
    /\ DefinedTomlPackage.resolver pkg' = Some "2"
    /\ match DefinedTomlPackage.license_file pkg with
       | Some lf =>
           if strip_prefix_ok env0 (normalize_path env0 (join_path env0 root lf)) root
           then DefinedTomlPackage.license_file pkg' = Some lf
           else exists f, file_name env0 lf = Some f
                          /\ DefinedTomlPackage.license_file pkg' = Some f
       | None => DefinedTomlPackage.license_file pkg' = None
       end
    /\ DefinedTomlManifest.cargo_features me'
       = add_resolver_feature (Some "2") (DefinedTomlManifest.cargo_features manifest_for_publish).
Proof.
  eexists. split; [reflexivity |].
  eapply (prepare_for_publish_package env0 (Some "2") "/ws/member/Cargo.toml"
            manifest_for_publish).
  reflexivity.
Defined.

(** X28: [prepare_for_publish] on a manifest without a [package] section never produces a manifest: [self.package.clone().unwrap()] panics. *)
Theorem prepare_for_publish_virtual (env : Env) (resolver : option string) (mf : string)
    (me : DefinedTomlManifest.t) :
  DefinedTomlManifest.package me = None ->
  prepare_for_publish env resolver mf me = Err unwrap_none_msg.
Proof.
  intros Hp. unfold prepare_for_publish, unwrap. rewrite Hp.
  destruct (path_parent env mf); reflexivity.
Qed.

Lemma prepare_for_publish_virtual_witness :
  DefinedTomlManifest.package manifest_virtual = None
  /\ prepare_for_publish env0 None "/ws/Cargo.toml" manifest_virtual = Err unwrap_none_msg.
Proof.
  split; [reflexivity |].
  apply (prepare_for_publish_virtual env0 None "/ws/Cargo.toml" manifest_virtual).
  reflexivity.
Defined.

(** X13: A dependency rewritten by [map_dependency] always materialises from a registry: either from a [registry-index] URL or from crates.io, never from a path or git source. *)
Theorem published_dependency_registry_source (env : Env) (dep dep' : DefinedTomlDependency.t)
    (name : string) (kind : option DepKind) (cx cx' : Context.t) (d : Dependency.t) :
  map_dependency env dep = Ok dep' ->
  to_dependency env dep' name kind cx = Ok (d, cx') ->
  (exists url, Dependency.source_id d = for_registry url)
  \/ crates_io env = Ok (Dependency.source_id d).
Proof.
  intros Hm Ht.
  destruct (map_dependency_shape env dep dep' Hm) as [d' [-> [Hr [Hp [Hg _]]]]].
  destruct (to_dependency_detailed_source env d' name kind cx) as [cx1 E].
  rewrite E in Ht. clear E. unfold mbind in Ht.
  destruct (new_source_id env d' name cx1) as [[sid cx2] |] eqn:Es; [| discriminate].
  destruct (build_dependency_source env d' name kind sid cx2 cx' d Ht) as [_ [Hsid _]].
  rewrite Hsid. clear Ht Hsid.
  unfold new_source_id in Es. rewrite Hr, Hp, Hg in Es.
  destruct (TomlDependencyDetails.registry_index d') as [idx |].
  - left. unfold mbind, lift, mret, sid_new in Es.
    destruct (into_url env idx) as [url |]; [| discriminate].
    destruct (source_id_new env (for_registry url)); [| discriminate].
    injection Es as <- _. exists url. reflexivity.
  - right. unfold lift in Es. destruct (crates_io env) as [s |]; [| discriminate].
    injection Es as <- _. reflexivity.
Qed.

Lemma published_dependency_registry_source_witness :
  exists dep' cx' d,
    map_dependency env0 (DefinedTomlDependency.Detailed alt_registry_dep) = Ok dep'
    /\ to_dependency env0 dep' "foo" None cx0 = Ok (d, cx')
    /\ ((exists url, Dependency.source_id d = for_registry url)
        \/ crates_io env0 = Ok (Dependency.source_id d)).
Proof.
  do 3 eexists. split; [reflexivity |]. split; [cbv; reflexivity |].
  eapply (published_dependency_registry_source env0
           (DefinedTomlDependency.Detailed alt_registry_dep) _ "foo" None cx0);
    cbv; reflexivity.
Defined.

Lemma to_toml_dependencies_map (deps : option DepMap) :
  to_toml_dependencies deps
  = option_map (map (fun kv => (fst kv, from_defined_dependency (snd kv)))) deps.
Proof.
  destruct deps as [l |]; [| reflexivity]. unfold to_toml_dependencies, map_btree.
  induction l as [| [k v] rest IH]; [reflexivity |]. simpl in *.
  destruct (map_entries (fun _ dep => Ok (from_defined_dependency dep)) rest); simpl in *.
  - injection IH as ->. reflexivity.
  - discriminate.
Qed.

Lemma to_defined_of_toml (env : Env) (deps : option DepMap)
    (ws_dependencies : option DepMap) (root_path : option string) :
  to_defined_dependencies env (to_toml_dependencies deps) ws_dependencies root_path = Ok deps.
Proof.
  rewrite to_toml_dependencies_map. destruct deps as [l |]; [| reflexivity].
  unfold to_defined_dependencies, map_btree. simpl.
  induction l as [| [k [s | d]] rest IH]; [reflexivity | |]; simpl in *;
    destruct (map_entries _ (map _ rest)); simpl in *; try discriminate;
    injection IH as ->; reflexivity.
Qed.

(** X14: Converting a dependency table with [to_toml_dependencies] and back with [to_defined_dependencies] gives it back, whatever the workspace dependencies. *)
Theorem to_defined_to_toml_dependencies (env : Env) (deps : option DepMap)
    (ws_dependencies : option DepMap) (root_path : option string) :
  to_defined_dependencies env (to_toml_dependencies deps) ws_dependencies root_path = Ok deps.
Proof. exact (to_defined_of_toml env deps ws_dependencies root_path). Qed.

(** X15: When [to_defined_dependencies] succeeds on a table, converting the result back with [to_toml_dependencies] gives the original table exactly when that table has no [workspace = true] entry. *)
Theorem to_toml_to_defined_dependencies (env : Env) (table : option TomlDepMap)
    (ws_dependencies : option DepMap) (root_path : option string) (deps : option DepMap) :
  to_defined_dependencies env table ws_dependencies root_path = Ok deps ->
  (to_toml_dependencies deps = table <-> no_workspace_entries table = true).
Proof.
  rewrite to_toml_dependencies_map. unfold to_defined_dependencies, map_btree.
  destruct table as [l |]; [| intros H; injection H as <-; simpl; tauto].
  set (ws_deps := match ws_dependencies with Some w => w | None => [] end).
  revert deps. induction l as [| [k t] rest IH]; intros deps H; simpl in H.
  - injection H as <-. simpl. tauto.
  - destruct (from_toml_dependency env t k ws_deps root_path) as [r |] eqn:Et;
      simpl in H; [| discriminate].
    destruct (map_entries (fun key dep => from_toml_dependency env dep key ws_deps root_path)
                rest) as [rest' |] eqn:Er; simpl in H; [| discriminate].
    injection H as <-. specialize (IH (Some rest') eq_refl). simpl in IH |- *.
    destruct t as [s | d | w]; simpl in Et |- *.
    + injection Et as <-. simpl. split.
      * intros Heq. injection Heq as Heq. apply IH. rewrite Heq. reflexivity.
      * intros Hf. injection (proj2 IH Hf) as Heq. exact (f_equal (fun l => Some (_ :: l)) Heq).
    + injection Et as <-. simpl. split.
      * intros Heq. injection Heq as Heq. apply IH. rewrite Heq. reflexivity.
      * intros Hf. injection (proj2 IH Hf) as Heq. exact (f_equal (fun l => Some (_ :: l)) Heq).
    + split; [| discriminate]. intros Heq. injection Heq as Heq.
      destruct r; discriminate Heq.
Qed.

Lemma to_toml_to_defined_dependencies_witness :
  exists deps,
    to_defined_dependencies env0 (Some [("foo", TomlDependency.Simple "1.0")]) None None = Ok deps
    /\ (to_toml_dependencies deps = Some [("foo", TomlDependency.Simple "1.0")]
        <-> no_workspace_entries (Some [("foo", TomlDependency.Simple "1.0")]) = true).
Proof.
  eexists. split; [reflexivity |].
  eapply (to_toml_to_defined_dependencies env0 _ None None). reflexivity.
Defined.

(** X16: [to_defined_dependencies] fails only on a [workspace = true] entry of the table, with the error of resolving that entry against the workspace dependencies. *)
Theorem to_defined_dependencies_error (env : Env) (table : option TomlDepMap)
    (ws_dependencies : option DepMap) (root_path : option string) (e : string) :
  to_defined_dependencies env table ws_dependencies root_path = Err e ->
  exists l name ws, table = Some l /\ In (name, TomlDependency.Workspace ws) l
  /\ from_workspace_entry env ws name
       (match ws_dependencies with Some w => w | None => [] end) root_path = Err e.
Proof.
  unfold to_defined_dependencies, map_btree.
  destruct table as [l |]; [| discriminate]. intros H.
  destruct (map_entries _ l) as [l' |] eqn:E; simpl in H; [discriminate |].
  injection H as ->. destruct (map_entries_err _ _ _ E) as [k [v [Hin Ev]]].
  destruct v as [s | d | w]; simpl in Ev; try discriminate.
  exists l, k, w. repeat split; assumption.
Qed.

Lemma to_defined_dependencies_error_witness :
  exists e,
    to_defined_dependencies env0 (Some [("foo", inherited_foo)]) None None = Err e
    /\ exists l name ws, Some [("foo", inherited_foo)] = Some l
       /\ In (name, TomlDependency.Workspace ws) l
       /\ from_workspace_entry env0 ws name [] None = Err e.
Proof.
  eexists. split; [reflexivity |].
  eapply (to_defined_dependencies_error env0 _ None None). reflexivity.
Defined.

(** X17: Converting a [DefinedTomlPlatform] to a [TomlPlatform] and back keeps [dependencies], [build-dependencies] and [dev-dependencies] and clears the underscore aliases. *)
Theorem platform_round_trip (env : Env) (p : DefinedTomlPlatform.t) (ws_deps : DepMap)
    (root_path : option string) :
  from_toml_platform env (from_defined_platform p) ws_deps root_path
  = Ok (DefinedTomlPlatform.mk (DefinedTomlPlatform.dependencies p)
          (DefinedTomlPlatform.build_dependencies p) None
          (DefinedTomlPlatform.dev_dependencies p) None).
Proof.
  unfold from_toml_platform, from_defined_platform. simpl.
  rewrite !or_else_None_r, !to_defined_of_toml. reflexivity.
Qed.

Lemma existsb_eqb_In (x : string) (l : list string) :
  existsb (String.eqb x) l = true <-> In x l.
Proof.
  rewrite existsb_exists. split.
  - intros [y [Hy Eq]]. apply String.eqb_eq in Eq. subst. exact Hy.
  - intros H. exists x. split; [exact H | apply String.eqb_refl].
Qed.

Lemma existsb_eqb_In_r (x : string) (l : list string) :
  existsb (fun y => String.eqb y x) l = true <-> In x l.
Proof.
  rewrite existsb_exists. split.
  - intros [y [Hy Eq]]. apply String.eqb_eq in Eq. subst. exact Hy.
  - intros H. exists x. split; [exact H | apply String.eqb_refl].
Qed.

(** X18: When [package.resolver] is set, [prepare_for_publish] keeps the [cargo-features] list as a prefix and ends with exactly one [resolver] entry more than before if there was none, and none more otherwise. Applying the update twice changes nothing. *)
Theorem add_resolver_feature_once (resolver : string) (cargo_features : option (list string)) :
  let feats := match cargo_features with Some l => l | None => [] end in
  exists out, add_resolver_feature (Some resolver) cargo_features = Some out
  /\ (exists suffix, out = (feats ++ suffix)%list)
  /\ count_occ string_dec out "resolver" = Nat.max 1 (count_occ string_dec feats "resolver")
  /\ add_resolver_feature (Some resolver) (Some out) = Some out.
Proof.
  simpl. destruct cargo_features as [l |].
  - unfold add_resolver_feature. simpl.
    destruct (existsb (fun feat => String.eqb feat "resolver") l) eqn:E; simpl.
    + exists l. rewrite E. split; [reflexivity |]. split; [exists []; symmetry; apply app_nil_r |].
      split; [| reflexivity].
      apply existsb_eqb_In_r in E. apply (count_occ_In string_dec) in E.
      destruct (count_occ string_dec l "resolver"); [lia | reflexivity].
    + assert (Hn : ~ In "resolver" l).
      { intros Hin. apply existsb_eqb_In_r in Hin. congruence. }
      exists (l ++ ["resolver"])%list. split; [reflexivity |].
      split; [exists ["resolver"]; reflexivity |].
      rewrite count_occ_app. apply (count_occ_not_In string_dec) in Hn. rewrite Hn. simpl.
      split; [reflexivity |].
      assert (Hin : existsb (fun feat => String.eqb feat "resolver") (l ++ ["resolver"])%list = true).
      { apply existsb_eqb_In_r. apply in_or_app. right. left. reflexivity. }
      rewrite Hin. reflexivity.
  - exists ["resolver"]. repeat split. exists ["resolver"]. reflexivity.
Qed.

Section Readme.
Variable is_file : string -> bool.

Lemma find_readme_first (env : Env) (root : string) (files : list string) :
  match find_readme is_file env root files with
  | Some f => exists pre post, files = (pre ++ f :: post)%list
              /\ is_file (join_path env root f) = true
              /\ forall g, In g pre -> is_file (join_path env root g) = false
  | None => forall g, In g files -> is_file (join_path env root g) = false
  end.
Proof.
  induction files as [| f rest IH]; simpl.
  - intros g [].
  - destruct (is_file (join_path env root f)) eqn:Ef.
    + exists [], rest. split; [reflexivity |]. split; [exact Ef | intros g []].
    + destruct (find_readme is_file env root rest) as [f' |].
      * destruct IH as [pre [post [-> [H1 H2]]]]. exists (f :: pre), post.
        split; [reflexivity |]. split; [exact H1 |].
        intros g [<- | Hg]; [exact Ef | exact (H2 g Hg)].
      * intros g [<- | Hg]; [exact Ef | exact (IH g Hg)].
Qed.
End Readme.

(** X19: [default_readme_from_package_root] returns the first of [README.md], [README.txt] and [README] that is a file in the package root, and [None] when none is. *)
Theorem default_readme_first_existing (is_file : string -> bool) (env : Env)
    (package_root : string) :
  match default_readme_from_package_root is_file env package_root with
  | Some f => exists pre post, DEFAULT_README_FILES = (pre ++ f :: post)%list
              /\ is_file (join_path env package_root f) = true
              /\ forall g, In g pre -> is_file (join_path env package_root g) = false
  | None => forall g, In g DEFAULT_README_FILES ->
            is_file (join_path env package_root g) = false
  end.
Proof. exact (find_readme_first is_file env package_root DEFAULT_README_FILES). Qed.

(** X20: Resolving [readme] or [license-file] fails only when the field is inherited with [workspace = true]: either the workspace does not define it, or joining the workspace path fails. *)
Theorem inherited_file_errors (is_file : string -> bool) (env : Env)
    (readme : option (MaybeWorkspace StringOrBool.t)) (ws_readme : option StringOrBool.t)
    (license_file : option (MaybeWorkspace string)) (ws_license_file : option string)
    (root_path : option string) (package_root : string) :
  (forall e, resolve_readme is_file env readme ws_readme root_path package_root = Err e ->
     readme = Some Workspace
     /\ ((ws_readme = None /\ e = readme_undefined_msg)
         \/ exists sb s, ws_readme = Some sb /\ string_or_default sb "README.md" = Some s
            /\ join_relative_path env root_path s = Err e))
  /\ (forall e, resolve_license_file env license_file ws_license_file root_path = Err e ->
     license_file = Some Workspace
     /\ ((ws_license_file = None /\ e = license_file_undefined_msg)
         \/ exists s, ws_license_file = Some s /\ join_relative_path env root_path s = Err e)).
Proof.
  split; intros e H.
  - destruct readme as [[| d] |]; simpl in H; try discriminate.
    split; [reflexivity |]. destruct ws_readme as [sb |].
    + right. destruct (string_or_default sb "README.md") as [s |] eqn:Es; [| discriminate].
      destruct (join_relative_path env root_path s) eqn:Ej; simpl in H; [discriminate |].
      injection H as ->. exists sb, s. repeat split; assumption.
    + left. injection H as <-. split; reflexivity.
  - destruct license_file as [[| d] |]; simpl in H; try discriminate.
    split; [reflexivity |]. destruct ws_license_file as [s |].
    + right. destruct (join_relative_path env root_path s) eqn:Ej; simpl in H; [discriminate |].
      injection H as ->. exists s. split; [reflexivity | exact Ej].
    + left. injection H as <-. split; reflexivity.
Qed.

Section Unique.
Variable src_path : Target -> TargetSourcePath.

Lemma unique_build_targets_from_ok (env : Env) (seen : list string) (targets : list Target)
    (root : string) :
  unique_build_targets_from src_path env seen targets root = Ok tt
  <-> NoDup (target_paths src_path env targets root)
      /\ forall x, In x (target_paths src_path env targets root) -> ~ In x seen.
Proof.
  revert seen. induction targets as [| t rest IH]; intros seen; simpl.
  - split; [intros _; split; [constructor | intros x []] | reflexivity].
  - destruct (src_path t) as [p |].
    + set (full := join_path env root p).
      destruct (existsb (String.eqb full) seen) eqn:E.
      * apply existsb_eqb_In in E. split; [discriminate |].
        intros [_ H]. exfalso. exact (H full (or_introl eq_refl) E).
      * rewrite IH. split.
        -- intros [Hnd Hs]. split.
           ++ constructor; [| exact Hnd]. intros Hin. exact (Hs full Hin (or_introl eq_refl)).
           ++ intros x [<- | Hx].
              ** intros Hin. apply existsb_eqb_In in Hin. congruence.
              ** intros Hin. exact (Hs x Hx (or_intror Hin)).
        -- intros [Hnd Hs]. apply NoDup_cons_iff in Hnd as [Hn Hnd']. split; [exact Hnd' |].
           intros x Hx [<- | Hin]; [exact (Hn Hx) |]. exact (Hs x (or_intror Hx) Hin).
    + exact (IH seen).
Qed.

Lemma unique_build_targets_from_err (env : Env) (seen : list string) (targets : list Target)
    (root : string) (dup : string) :
  unique_build_targets_from src_path env seen targets root = Err dup ->
  exists pre post, target_paths src_path env targets root = (pre ++ dup :: post)%list
  /\ (In dup pre \/ In dup seen)
  /\ NoDup pre /\ (forall x, In x pre -> ~ In x seen).
Proof.
  revert seen. induction targets as [| t rest IH]; intros seen H; simpl in H |- *;
    [discriminate |].
  destruct (src_path t) as [p |].
  - set (full := join_path env root p) in *.
    destruct (existsb (String.eqb full) seen) eqn:E.
    + injection H as <-. apply existsb_eqb_In in E.
      exists [], (target_paths src_path env rest root).
      split; [reflexivity |]. split; [right; exact E |]. split; [constructor | intros x []].
    + destruct (IH (full :: seen) H) as [pre [post [Hp [Hd [Hnd Hs]]]]].
      exists (full :: pre), post. split; [rewrite Hp; reflexivity |]. split.
      * destruct Hd as [Hd | [<- | Hd]]; [left; right; exact Hd | left; left; reflexivity |].
        right. exact Hd.
      * split.
        -- constructor; [| exact Hnd]. intros Hin. exact (Hs full Hin (or_introl eq_refl)).
        -- intros x [<- | Hx].
           ++ intros Hin. apply existsb_eqb_In in Hin. congruence.
           ++ intros Hin. exact (Hs x Hx (or_intror Hin)).
  - exact (IH seen H).
Qed.
End Unique.

(** X21: [unique_build_targets] succeeds exactly when the full source paths of the targets are pairwise distinct. *)
Theorem unique_build_targets_ok_iff (src_path : Target -> TargetSourcePath) (env : Env)
    (targets : list Target) (package_root : string) :
  unique_build_targets src_path env targets package_root = Ok tt
  <-> NoDup (target_paths src_path env targets package_root).
Proof.
  unfold unique_build_targets. rewrite unique_build_targets_from_ok.
  split; [intros [H _]; exact H | intros H; split; [exact H | intros x _ []]].
Qed.

(** X22: When [unique_build_targets] fails, the path it reports is the first full source path that repeats an earlier one. *)
Theorem unique_build_targets_first_duplicate (src_path : Target -> TargetSourcePath)
    (env : Env) (targets : list Target) (package_root : string) (dup : string) :
  unique_build_targets src_path env targets package_root = Err dup ->
  exists pre post, target_paths src_path env targets package_root = (pre ++ dup :: post)%list
  /\ In dup pre /\ NoDup pre.
Proof.
  unfold unique_build_targets. intros H.
  destruct (unique_build_targets_from_err src_path env [] targets package_root dup H)
    as [pre [post [Hp [[Hd | []] [Hnd _]]]]].
  exists pre, post. repeat split; assumption.
Qed.

Lemma unique_build_targets_first_duplicate_witness :
  exists dup,
    unique_build_targets target_src_path env0 [main_bin; build_script; main_bin] "/pkg" = Err dup
    /\ exists pre post,
         target_paths target_src_path env0 [main_bin; build_script; main_bin] "/pkg"
         = (pre ++ dup :: post)%list
         /\ In dup pre /\ NoDup pre.
Proof.
  eexists. split; [reflexivity |].
  eapply (unique_build_targets_first_duplicate target_src_path env0 _ "/pkg"). reflexivity.
Defined.

(** X23: [TomlTarget::proc_macro] returns an explicit [proc-macro] (or [proc_macro]) setting as it is. It is [Some false] only when that setting is false. It is [None] only when there is no setting and no [proc-macro] crate type. *)
Theorem proc_macro_explicit_wins (t : TomlTarget.t) :
  (forall b, or_else (TomlTarget.proc_macro_raw t) (TomlTarget.proc_macro_raw2 t) = Some b ->
     TomlTarget.proc_macro t = Some b)
  /\ (TomlTarget.proc_macro t = Some false
      <-> or_else (TomlTarget.proc_macro_raw t) (TomlTarget.proc_macro_raw2 t) = Some false)
  /\ (TomlTarget.proc_macro t = None
      <-> or_else (TomlTarget.proc_macro_raw t) (TomlTarget.proc_macro_raw2 t) = None
          /\ forall types, TomlTarget.crate_types t = Some types -> ~ In "proc-macro" types).
Proof.
  unfold TomlTarget.proc_macro.
  destruct (or_else (TomlTarget.proc_macro_raw t) (TomlTarget.proc_macro_raw2 t)) as [b |].
  - split; [intros b' Hb; exact Hb |]. split; [tauto |].
    split; [discriminate | intros [H _]; discriminate].
  - split; [discriminate |].
    destruct (TomlTarget.crate_types t) as [types |].
    + destruct (existsb (String.eqb "proc-macro") types) eqn:E.
      * apply existsb_eqb_In in E. split; [split; discriminate |].
        split; [discriminate |]. intros [_ H]. exfalso. exact (H types eq_refl E).
      * split; [split; discriminate |]. split; [| reflexivity]. intros _. split; [reflexivity |].
        intros types' Ht Hin. injection Ht as <-. apply existsb_eqb_In in Hin. congruence.
    + split; [split; discriminate |]. split; [| reflexivity]. intros _.
      split; [reflexivity | intros types' Ht; discriminate].
Qed.

Lemma to_uint_not_nil (p : positive) : Pos.to_uint p <> Decimal.Nil.
Proof.
  intros H. pose proof (DecimalZ.of_to (Zpos p)) as E. simpl in E. rewrite H in E.
  discriminate E.
Qed.

Lemma string_of_uint_head (d : Decimal.uint) :
  d <> Decimal.Nil ->
  exists c rest, NilEmpty.string_of_uint d = String c rest
  /\ Ascii.eqb c "+"%char = false /\ Ascii.eqb c "-"%char = false
  /\ NilEmpty.string_of_uint d <> "s" /\ NilEmpty.string_of_uint d <> "z".
Proof.
  destruct d; intros H; [contradiction | ..]; simpl;
    eexists; eexists; (split; [reflexivity |]); repeat split; discriminate.
Qed.

Lemma parse_u32_digits (d : Decimal.uint) (n : Z) :
  d <> Decimal.Nil -> Z.of_uint d = n ->
  TomlOptLevel.parse_u32 (NilEmpty.string_of_uint d)
  = if Z.ltb n (2 ^ 32) then Some n else None.
Proof.
  intros Hd Hn. destruct (string_of_uint_head d Hd) as [c [rest [Hs [Hp _]]]].
  unfold TomlOptLevel.parse_u32. rewrite Hs, Hp. rewrite <- Hs, NilEmpty.usu, Hn.
  reflexivity.
Qed.

Lemma parse_u32_minus (rest : string) :
  TomlOptLevel.parse_u32 (String "-" rest) = None.
Proof.
  unfold TomlOptLevel.parse_u32. simpl.
  destruct (NilEmpty.uint_of_string rest); reflexivity.
Qed.

(** X24: Serialising a deserialised [TomlOptLevel] and deserialising it again gives the same level exactly when the level was [s], [z] or an integer in [0, 2^32); a negative or larger integer level serialises to a string that is rejected. *)
Theorem opt_level_round_trip (v : TomlValue) (level : string) :
  TomlOptLevel.deserialize v = Ok level ->
  (TomlOptLevel.deserialize (TomlOptLevel.serialize level) = Ok level
   <-> match v with Integer n => (0 <= n < 2 ^ 32)%Z | _ => True end).
Proof.
  destruct v as [n | b | s | u]; simpl; intros H.
  - injection H as <-. unfold i64_to_string.
    destruct n as [| p | p]; simpl.
    + unfold TomlOptLevel.serialize. simpl. split; [intros _; lia | reflexivity].
    + unfold TomlOptLevel.serialize.
      rewrite (parse_u32_digits (Pos.to_uint p) (Zpos p) (to_uint_not_nil p)
                 (DecimalZ.of_to (Zpos p))).
      destruct (Z.ltb_spec (Zpos p) (2 ^ 32)) as [Hlt | Hge]; simpl.
      * unfold i64_to_string. simpl. split; [intros _; lia | reflexivity].
      * destruct (string_of_uint_head (Pos.to_uint p) (to_uint_not_nil p))
          as [c [rest [_ [_ [_ [Hs Hz]]]]]].
        apply String.eqb_neq in Hs. apply String.eqb_neq in Hz. rewrite Hs, Hz. simpl.
        split; [discriminate | lia].
    + unfold TomlOptLevel.serialize. rewrite parse_u32_minus. simpl.
      split; [discriminate | lia].
  - discriminate.
  - destruct (String.eqb_spec s "s") as [-> | Hs];
      [| destruct (String.eqb_spec s "z") as [-> | Hz]]; simpl in H; try discriminate;
      injection H as <-; split; reflexivity.
  - discriminate.
Qed.

Lemma opt_level_round_trip_witness :
  TomlOptLevel.deserialize (Integer (-1)%Z) = Ok "-1"
  /\ (TomlOptLevel.deserialize (TomlOptLevel.serialize "-1") = Ok "-1"
      <-> (0 <= -1 < 2 ^ 32)%Z).
Proof.
  split; [vm_compute; reflexivity |].
  eapply (opt_level_round_trip (Integer (-1)%Z)). vm_compute. reflexivity.
Defined.

(** X25: Serialising a deserialised [U32OrBool] and deserialising it again gives it back. *)
Theorem u32_or_bool_round_trip (v : TomlValue) (x : U32OrBool.t) :
  U32OrBool.deserialize v = Ok x -> U32OrBool.deserialize (U32OrBool.serialize x) = Ok x.
Proof.
  destruct v as [u | b | s | w]; simpl; intros H; try discriminate; injection H as <-;
    simpl; [| reflexivity].
  unfold U32OrBool.as_u32. rewrite Z.mod_mod; [reflexivity | lia].
Qed.

Lemma u32_or_bool_round_trip_witness :
  U32OrBool.deserialize (Integer (-1)%Z) = Ok (U32OrBool.U32 4294967295%Z)
  /\ U32OrBool.deserialize (U32OrBool.serialize (U32OrBool.U32 4294967295%Z))
     = Ok (U32OrBool.U32 4294967295%Z).
Proof.
  split; [vm_compute; reflexivity |].
  eapply (u32_or_bool_round_trip (Integer (-1)%Z)). vm_compute. reflexivity.
Defined.

(** X26: [U32OrBool] reads every integer modulo 2^32: integers that differ by a multiple of 2^32 read the same, and the value read lies in [0, 2^32). *)
Theorem u32_or_bool_wraps (u k : Z) :
  U32OrBool.deserialize (Integer (u + k * 2 ^ 32))
  = U32OrBool.deserialize (Integer u)
  /\ exists n, U32OrBool.deserialize (Integer u) = Ok (U32OrBool.U32 n) /\ (0 <= n < 2 ^ 32)%Z.
Proof.
  simpl. unfold U32OrBool.as_u32. split.
  - rewrite Z.mod_add; [reflexivity | lia].
  - eexists. split; [reflexivity |]. apply Z.mod_pos_bound. lia.
Qed.
